(** * IBKR equity execution engine (src/IBKR_execution.py)

    Shallow embedding of [IBKREquityExecutionEngine]: the per-symbol
    [run] cycle, its entry gates, the daily-loss kill switch, the order
    placement helpers, the order classifiers and the position manager,
    together with [main_execution].

    Modelling conventions.
    - Python floats (prices, PnL, buying power, percentages) are modelled
      as exact rationals [Q]; [int(x)] on a float is truncation toward 0.
    - The broker ([ib_insync.IB]) is an environment [Broker] read during a
      run; the mutable engine/broker state that the code threads through
      calls ([ib.trades()], [order_submit_time], [_stats], the printed
      summary lines) is an explicit state [St].
    - Python exceptions are the [Raise] outcome of a state/exception
      monad: the state reached before the raise is kept, as in Python.
    - Logging calls that only print are no-ops, except [log_error], which
      also increments the ["errs"] counter as in the source. *)

From Stdlib Require Import QArith Qround Qabs Lqa Bool Ascii String.
From stdpp Require Import base gmap strings list.

Open Scope Q_scope.

Notation "a =s? b" := (String.eqb a b) (at level 70).

(** Python's [x < y] on floats. *)
Definition Qlt_bool (x y : Q) : bool := negb (Qle_bool y x).

(* ------------------------------------------------------------------ *)
(** ** Data model *)

(** [RiskConfig] (dataclass). *)
Record RiskConfig := mkRiskConfig {
  per_trade_risk_pct : Q;
  per_day_risk_pct : Q;
  max_open_orders : Z;
  min_order_age_seconds : Q;
  trail_pct : Q;
  trail_tif : string;
  entry_qty : Z;
  preflight_stop_pct : Q
}.

Definition default_risk : RiskConfig := {|
  per_trade_risk_pct := 0.005;
  per_day_risk_pct := 0.01;
  max_open_orders := 3;
  min_order_age_seconds := 3600;
  trail_pct := 0.02;
  trail_tif := "GTC";
  entry_qty := 2;
  preflight_stop_pct := 0.04
|}.

(** The engine's constructor arguments. *)
Record Engine := mkEngine {
  risk : RiskConfig;
  execute_trades_default : bool;
  allow_exits_when_killed : bool
}.

(** [IBKREquityExecutionEngine(client_id)] with the module defaults
    [EXECUTE_TRADES_DEFAULT = True], [ALLOW_EXITS_WHEN_KILLED = True]. *)
Definition default_engine : Engine := mkEngine default_risk true true.

(** An [ib_insync] order: only the fields the engine sets or reads. *)
Record Order := mkOrder {
  orderId : Z;
  action : string;
  orderType : string;
  totalQuantity : Z;
  lmtPrice : option Q;
  auxPrice : option Q;
  trailingPercent : option Q;
  tif : string;
  outsideRth : bool
}.

Definition base_order (act ty : string) (qty : Z) : Order :=
  mkOrder 0 act ty qty None None None EmptyString false.

(** [MarketOrder(action, qty)], [LimitOrder(action, qty, px)],
    [StopOrder(action, qty, px)]. *)
Definition MarketOrder (act : string) (qty : Z) : Order := base_order act "MKT" qty.
Definition LimitOrder (act : string) (qty : Z) (px : Q) : Order :=
  mkOrder 0 act "LMT" qty (Some px) None None EmptyString false.
Definition StopOrder (act : string) (qty : Z) (px : Q) : Order :=
  mkOrder 0 act "STP" qty None (Some px) None EmptyString false.

Definition set_outsideRth (o : Order) : Order :=
  mkOrder (orderId o) (action o) (orderType o) (totalQuantity o) (lmtPrice o)
    (auxPrice o) (trailingPercent o) (tif o) true.

Definition set_orderId (oid : Z) (o : Order) : Order :=
  mkOrder oid (action o) (orderType o) (totalQuantity o) (lmtPrice o)
    (auxPrice o) (trailingPercent o) (tif o) (outsideRth o).

(** A [Trade] of [ib.trades()]: its contract ([None] when
    [t.contract is None], otherwise the contract's [conId]), its order
    and its [orderStatus.status]. *)
Record Trade := mkTrade {
  t_contract : option Z;
  t_order : Order;
  t_status : string
}.

(** A [Position] of [ib.positions()]. *)
Record Position := mkPosition {
  p_conid : Z;
  p_secType : string;
  p_position : Q;
  p_avgCost : option Q
}.

(** Market-data snapshot fields ([None] for unset). *)
Record Quote := mkQuote {
  q_bid : option Q;
  q_ask : option Q;
  q_last : option Q;
  q_close : option Q
}.

(** Values a pandas cell of the [con_id] column can hold. *)
Inductive PyVal :=
| VNone
| VNaN
| VInt (z : Z)
| VFloat (q : Q)
| VStr (s : string).

(** A row of [stock_execution_signals_5m] (the columns the engine reads). *)
Record SignalRow := mkSignalRow {
  sig_symbol : string;
  sig_timestamp : Z;
  sig_con_id : PyVal;
  sig_trade_signal : bool
}.

(** What the broker and the database show during one [run]. *)
Record Broker := mkBroker {
  b_connect_ok : bool;                 (** [ib.connect] does not raise *)
  b_account : option (list (string * option string));
                                       (** [ib.accountSummary()] rows (tag, value);
                                           [None]: the call raises *)
  b_daily_pnl : option Q;              (** what [get_daily_pnl] returns *)
  b_positions : list Position;         (** [ib.positions()] *)
  b_quote : Z -> option Quote;         (** [reqMktData] per conId; [None]: raises *)
  b_rth : bool;                        (** [_is_rth_now()] *)
  b_place_ok : bool;                   (** [ib.placeOrder] does not raise *)
  b_status : string;                   (** status shown for a newly placed order *)
  b_now : Q;                           (** [datetime.now(timezone.utc)], in seconds *)
  b_db : option (list SignalRow)       (** the signal table; [None]: the read fails *)
}.

(** Engine and broker-side mutable state. [s_placed] is a log of every
    order handed to [ib.placeOrder] during the modelled calls. *)
Record St := mkSt {
  s_trades : list Trade;               (** [ib.trades()] *)
  s_next_id : Z;                       (** next order id the client assigns *)
  s_submit_time : gmap Z Q;            (** [self.order_submit_time] *)
  s_stats : gmap string Z;             (** [self._stats] *)
  s_run_symbol : option string;        (** [self._run_symbol] *)
  s_pm_logged : bool;                  (** [self._pm_logged_this_cycle] *)
  s_summaries : list (string * gmap string Z);  (** printed SUMMARY lines *)
  s_placed : list Trade
}.

(* ------------------------------------------------------------------ *)
(** ** A state monad with Python exceptions *)

Inductive res (A : Type) :=
| Ok (a : A)
| Raise (e : string).
Arguments Ok {A} a.
Arguments Raise {A} e.

Definition M (A : Type) : Type := Broker -> St -> res A * St.

Definition ret {A} (a : A) : M A := fun _ s => (Ok a, s).

Definition bind {A B} (m : M A) (k : A -> M B) : M B :=
  fun b s =>
    match m b s with
    | (Ok a, s1) => k a b s1
    | (Raise e, s1) => (Raise e, s1)
    end.

Notation "x <- m ;; k" := (bind m (fun x => k))
  (at level 100, m at next level, right associativity).
Notation "m ;; k" := (bind m (fun _ => k))
  (at level 100, right associativity).

Definition raise {A} (e : string) : M A := fun _ s => (Raise e, s).

(** [try: m except Exception: h] *)
Definition try_except {A} (m : M A) (h : string -> M A) : M A :=
  fun b s =>
    match m b s with
    | (Ok a, s1) => (Ok a, s1)
    | (Raise e, s1) => h e b s1
    end.

(** [try: m finally: f] (a [return] inside [m] is its [Ok] outcome). *)
Definition try_finally {A} (m : M A) (f : M unit) : M A :=
  fun b s =>
    match m b s with
    | (Ok a, s1) =>
        match f b s1 with
        | (Ok _, s2) => (Ok a, s2)
        | (Raise e, s2) => (Raise e, s2)
        end
    | (Raise e, s1) =>
        match f b s1 with
        | (Ok _, s2) => (Raise e, s2)
        | (Raise e', s2) => (Raise e', s2)
        end
    end.

Definition get : M St := fun _ s => (Ok s, s).
Definition put (s : St) : M unit := fun _ _ => (Ok tt, s).
Definition modify (f : St -> St) : M unit := fun _ s => (Ok tt, f s).
Definition ask : M Broker := fun b s => (Ok b, s).

(** [for x in xs: f(x)] *)
Fixpoint for_each {A} (f : A -> M unit) (xs : list A) : M unit :=
  match xs with
  | [] => ret tt
  | x :: xs' => f x ;; for_each f xs'
  end.

(** Field updates of [St]. *)
Definition set_trades_placed (ts ps : list Trade) (s : St) : St :=
  mkSt ts (s_next_id s) (s_submit_time s) (s_stats s) (s_run_symbol s)
    (s_pm_logged s) (s_summaries s) ps.
Definition set_next_id (n : Z) (s : St) : St :=
  mkSt (s_trades s) n (s_submit_time s) (s_stats s) (s_run_symbol s)
    (s_pm_logged s) (s_summaries s) (s_placed s).
Definition set_submit_time (m : gmap Z Q) (s : St) : St :=
  mkSt (s_trades s) (s_next_id s) m (s_stats s) (s_run_symbol s)
    (s_pm_logged s) (s_summaries s) (s_placed s).
Definition set_stats (m : gmap string Z) (s : St) : St :=
  mkSt (s_trades s) (s_next_id s) (s_submit_time s) m (s_run_symbol s)
    (s_pm_logged s) (s_summaries s) (s_placed s).
Definition set_run_symbol (o : option string) (s : St) : St :=
  mkSt (s_trades s) (s_next_id s) (s_submit_time s) (s_stats s) o
    (s_pm_logged s) (s_summaries s) (s_placed s).
Definition set_pm_logged (v : bool) (s : St) : St :=
  mkSt (s_trades s) (s_next_id s) (s_submit_time s) (s_stats s) (s_run_symbol s)
    v (s_summaries s) (s_placed s).
Definition set_summaries (l : list (string * gmap string Z)) (s : St) : St :=
  mkSt (s_trades s) (s_next_id s) (s_submit_time s) (s_stats s) (s_run_symbol s)
    (s_pm_logged s) l (s_placed s).

(* ------------------------------------------------------------------ *)
(** ** Per-run stats and logging *)

Definition stat (k : string) (m : gmap string Z) : Z := default 0%Z (m !! k).

(** [_reset_stats(symbol)] *)
Definition init_stats : gmap string Z :=
  <["signal" := 0%Z]> (<["entry" := 0%Z]> (<["be" := 0%Z]> (<["tp1" := 0%Z]>
  (<["trail_ensure" := 0%Z]> (<["skips_no_price" := 0%Z]> (<["errs" := 0%Z]> ∅)))))).

Definition reset_stats (symbol : string) : M unit :=
  modify (fun s => set_stats init_stats (set_run_symbol (Some symbol) s)).

(** [_inc(k)] *)
Definition inc (k : string) : M unit :=
  modify (fun s => set_stats (<[k := (stat k (s_stats s) + 1)%Z]> (s_stats s)) s).

(** [log_error] prints and increments ["errs"]; [log_info]/[log_debug]
    only print and are not modelled. *)
Definition log_error : M unit := inc "errs".

(** [_print_run_summary()]: one SUMMARY line with the current counters;
    [self._run_symbol or "?"] replaces a missing or empty symbol. *)
Definition print_run_summary : M unit :=
  modify (fun s =>
    let sym := match s_run_symbol s with
               | Some x => if x =s? EmptyString then "?" else x
               | None => "?"
               end in
    set_summaries (s_summaries s ++ [(sym, s_stats s)]) s).

(* ------------------------------------------------------------------ *)
(** ** Broker calls *)

(** [connect()]: [ib.connect] raises when the gateway refuses. *)
Definition connect : M unit :=
  fun b s => if b_connect_ok b then (Ok tt, s) else (Raise "ConnectionRefusedError", s).

(** [ib.trades()] *)
Definition trades : M (list Trade) := fun _ s => (Ok (s_trades s), s).

(** [ib.accountSummary()] *)
Definition accountSummary : M (list (string * option string)) :=
  fun b s => match b_account b with
             | Some rows => (Ok rows, s)
             | None => (Raise "accountSummary", s)
             end.

(** [get_positions()]: the STK positions of [ib.positions()]. *)
Definition positions_STK (ps : list Position) : list Position :=
  List.filter (fun p => p_secType p =s? "STK") ps.

Definition get_positions : M (list Position) :=
  fun b s => (Ok (positions_STK (b_positions b)), s).

(** [_is_rth_now()] *)
Definition is_rth_now : M bool := fun b s => (Ok (b_rth b), s).

(** [get_daily_pnl()]: every failure inside it is caught and yields [None]. *)
Definition get_daily_pnl : M (option Q) := fun b s => (Ok (b_daily_pnl b), s).

(** [ib.placeOrder(contract, o)]: the client assigns the next order id and
    the new trade appears in [ib.trades()] with the broker's status. *)
Definition placeOrder (conid : Z) (o : Order) : M Trade :=
  fun b s =>
    if b_place_ok b then
      let t := mkTrade (Some conid) (set_orderId (s_next_id s) o) (b_status b) in
      (Ok t, set_next_id (s_next_id s + 1)%Z
               (set_trades_placed (s_trades s ++ [t]) (s_placed s ++ [t]) s))
    else (Raise "placeOrder", s).

(** [_track_trade(trade)] *)
Definition track_trade (t : Trade) : M unit :=
  fun b s => (Ok tt, set_submit_time (<[orderId (t_order t) := b_now b]> (s_submit_time s)) s).

(** Python [int(x)] on a float: truncation toward zero. *)
Definition py_int (q : Q) : Z := Z.quot (Qnum q) (Zpos (Qden q)).

(* ------------------------------------------------------------------ *)
(** ** Order classification *)

Definition working_status (st : string) : bool :=
  (st =s? "Submitted") || (st =s? "PreSubmitted") || (st =s? "ApiPending").

(** [_open_trades_for_conid(conid)] *)
Definition open_trades_for_conid (ts : list Trade) (conid : Z) : list Trade :=
  List.filter (fun t => match t_contract t with
                   | Some c => bool_decide (c = conid) && working_status (t_status t)
                   | None => false
                   end) ts.

(** [_has_working_breakeven_stop(conid)] *)
Definition has_working_breakeven_stop (ts : list Trade) (conid : Z) : bool :=
  existsb (fun t => let o := t_order t in
                    (action o =s? "SELL") &&
                    ((orderType o =s? "STP") || (orderType o =s? "STOP")))
    (open_trades_for_conid ts conid).

(** [_has_working_scaleout_sell(conid)] *)
Definition has_working_scaleout_sell (ts : list Trade) (conid : Z) : bool :=
  existsb (fun t => let o := t_order t in
                    (action o =s? "SELL") &&
                    ((orderType o =s? "MKT") || (orderType o =s? "LMT")))
    (open_trades_for_conid ts conid).

(** [_has_working_trailing_sell(conid)]; a trade whose contract is [None]
    has [getattr(None, "conId", -1) = -1]. *)
Definition has_working_trailing_sell (ts : list Trade) (conid : Z) : bool :=
  existsb (fun t => working_status (t_status t)
                    && (orderType (t_order t) =s? "TRAIL")
                    && (action (t_order t) =s? "SELL")
                    && bool_decide (default (-1)%Z (t_contract t) = conid))
    ts.

(** [_is_entry_order_trade(t)] *)
Definition is_entry_order_trade (t : Trade) : bool :=
  if orderType (t_order t) =s? "TRAIL" then false
  else if negb (action (t_order t) =s? "BUY") then false
  else true.

(* ------------------------------------------------------------------ *)
(** ** Prices *)

(** [x if (x and x > 0) else None] *)
Definition positive_field (x : option Q) : option Q :=
  match x with
  | Some q => if Qlt_bool 0 q then Some q else None
  | None => None
  end.

(** The resolution order of [get_mark_price_snapshot]. *)
Definition mark_of_quote (qt : Quote) : option Q :=
  match positive_field (q_bid qt), positive_field (q_ask qt) with
  | Some bid, Some ask => Some ((bid + ask) / 2)
  | _, _ =>
      match positive_field (q_last qt) with
      | Some l => Some l
      | None => positive_field (q_close qt)
      end
  end.

(** [get_mark_price_snapshot(contract)]: [reqMktData] may raise. *)
Definition get_mark_price_snapshot (conid : Z) : M (option Q) :=
  fun b s => match b_quote b conid with
             | Some qt => (Ok (mark_of_quote qt), s)
             | None => (Raise "reqMktData", s)
             end.

(** [_entry_from_position(p)]: [float(avgCost or 0.0)], kept if [> 0]. *)
Definition entry_from_position (p : Position) : option Q :=
  let ac := default 0 (p_avgCost p) in
  if Qlt_bool 0 ac then Some ac else None.

(** Python [round(x, 2)]: round half to even at two decimals. *)
Definition round_half_even (x : Q) : Z :=
  let f := Qfloor x in
  match Qcompare (x - inject_Z f) (1 # 2) with
  | Lt => f
  | Gt => (f + 1)%Z
  | Eq => if Z.even f then f else (f + 1)%Z
  end.

Definition round2 (x : Q) : Q := inject_Z (round_half_even (x * 100)) / 100.

(* ------------------------------------------------------------------ *)
(** ** Order placement *)

Section Placement.
Variable cfg : RiskConfig.

(** [place_and_track]: [t = ib.placeOrder(contract, o); _track_trade(t)]. *)
Definition place_and_track (conid : Z) (o : Order) : M (option Trade) :=
  t <- placeOrder conid o ;;
  track_trade t ;;
  ret (Some t).

(** [place_market_sell(contract, qty, allow)] *)
Definition place_market_sell (conid qty : Z) (allow : bool) : M (option Trade) :=
  if negb allow then ret None
  else place_and_track conid (MarketOrder "SELL" qty).

(** [place_trailing_stop(contract, qty, allow)] *)
Definition trail_order (qty : Z) : Order :=
  mkOrder 0 "SELL" "TRAIL" qty None None (Some (trail_pct cfg * 100)) (trail_tif cfg) false.

Definition place_trailing_stop (conid qty : Z) (allow : bool) : M (option Trade) :=
  if negb allow then ret None
  else place_and_track conid (trail_order qty).

(** [place_buy_entry(contract, qty, allow)]: RTH market buy, otherwise a
    limit buy at [round(mark * 1.002, 2)] flagged [outsideRth]. *)
Definition place_buy_entry (conid qty : Z) (allow : bool) : M (option Trade) :=
  if negb allow then ret None
  else
    is_rth <- is_rth_now ;;
    if is_rth then place_and_track conid (MarketOrder "BUY" qty)
    else
      px <- get_mark_price_snapshot conid ;;
      match px with
      | None => inc "skips_no_price" ;; ret None
      | Some p =>
          if Qle_bool p 0 then inc "skips_no_price" ;; ret None
          else
            let limit_px := round2 (p * 1.002) in
            place_and_track conid (set_outsideRth (LimitOrder "BUY" qty limit_px))
      end.

(** [place_sell_scaleout_1(contract, allow)]: 1 share, RTH market,
    otherwise a limit sell at [round(mark * 0.998, 2)] flagged [outsideRth]. *)
Definition place_sell_scaleout_1 (conid : Z) (allow : bool) : M (option Trade) :=
  if negb allow then ret None
  else
    is_rth <- is_rth_now ;;
    if is_rth then place_and_track conid (MarketOrder "SELL" 1)
    else
      px <- get_mark_price_snapshot conid ;;
      match px with
      | None => inc "skips_no_price" ;; ret None
      | Some p =>
          if Qle_bool p 0 then inc "skips_no_price" ;; ret None
          else
            let limit_px := round2 (p * 0.998) in
            place_and_track conid (set_outsideRth (LimitOrder "SELL" 1 limit_px))
      end.

(** [place_breakeven_stop(contract, qty, stop_price, allow)] *)
Definition place_breakeven_stop (conid qty : Z) (stop_price : Q) (allow : bool)
  : M (option Trade) :=
  if negb allow then ret None
  else place_and_track conid (set_outsideRth (StopOrder "SELL" qty stop_price)).

End Placement.

(* ------------------------------------------------------------------ *)
(** ** Python number parsing used by the engine *)

(** [str.isspace()] on ASCII: tab to carriage return, the separators
    0x1c-0x1f and the blank. *)
Definition is_space (c : Ascii.ascii) : bool :=
  let n := Ascii.nat_of_ascii c in
  (n =? 32)%nat || ((9 <=? n)%nat && (n <=? 13)%nat) || ((28 <=? n)%nat && (n <=? 31)%nat).

Fixpoint drop_spaces (l : list Ascii.ascii) : list Ascii.ascii :=
  match l with
  | c :: r => if is_space c then drop_spaces r else l
  | [] => []
  end.

(** [str.strip()] *)
Definition strip_chars (l : list Ascii.ascii) : list Ascii.ascii :=
  rev (drop_spaces (rev (drop_spaces l))).

Definition digit_val (c : Ascii.ascii) : option Z :=
  let n := Ascii.nat_of_ascii c in
  if (48 <=? n)%nat && (n <=? 57)%nat then Some (Z.of_nat n - 48)%Z else None.

(** The leading decimal digits of [l] and the rest. *)
Fixpoint take_digits (l : list Ascii.ascii) : list Z * list Ascii.ascii :=
  match l with
  | c :: r =>
      match digit_val c with
      | Some d => let (ds, rest) := take_digits r in (d :: ds, rest)
      | None => ([], l)
      end
  | [] => ([], [])
  end.

Definition digits_value (ds : list Z) : Z :=
  fold_left (fun a d => a * 10 + d)%Z ds 0%Z.

Definition split_sign (l : list Ascii.ascii) : Z * list Ascii.ascii :=
  match l with
  | "-"%char :: r => ((-1)%Z, r)
  | "+"%char :: r => (1%Z, r)
  | _ => (1%Z, l)
  end.

(** Python [float(s)] on decimal literals [[+-]digits[.digits]]
    (surrounding whitespace allowed); [None] where Python raises. The
    value is the exact decimal, not its rounding to the nearest double:
    the two agree only on literals a double represents exactly. The
    exponent, [inf]/[nan] and underscore forms are not modelled and
    yield [None]. *)
Definition py_float (s : string) : option Q :=
  let (sgn, l1) := split_sign (strip_chars (list_ascii_of_string s)) in
  let (ip, l2) := take_digits l1 in
  match l2 with
  | [] => match ip with [] => None | _ => Some (inject_Z (sgn * digits_value ip)) end
  | "."%char :: l3 =>
      let (fp, l4) := take_digits l3 in
      match l4, ip, fp with
      | _ :: _, _, _ => None
      | [], [], [] => None
      | [], _, _ =>
          Some (inject_Z sgn *
                (inject_Z (digits_value ip)
                 + inject_Z (digits_value fp) / inject_Z (10 ^ Z.of_nat (length fp))))
      end
  | _ => None
  end.

(** Python [int(s)] on a stripped string: [[+-]digits]; more than 4300
    digits raise (the default [sys.int_info.default_max_str_digits]). The
    underscore form is not modelled and yields [None]. *)
Definition py_int_str (s : string) : option Z :=
  let (sgn, l1) := split_sign (list_ascii_of_string s) in
  match take_digits l1 with
  | ((_ :: _) as ds, []) =>
      if (4300 <? length ds)%nat then None else Some (sgn * digits_value ds)%Z
  | _ => None
  end.

(** [str(v).replace(",", EmptyString)]: the commas removed. *)
Definition remove_commas (s : string) : string :=
  string_of_list_ascii (List.filter (fun c => negb (Ascii.eqb c ","%char))
                                    (list_ascii_of_string s)).

Definition has_dot (s : string) : bool :=
  existsb (fun c => Ascii.eqb c "."%char) (list_ascii_of_string s).

(** [_safe_int(v)] *)
Definition safe_int (v : PyVal) : option Z :=
  match v with
  | VNone => None
  | VNaN => None
  | VInt z => Some z
  | VFloat q => Some (py_int q)
  | VStr s =>
      let s' := string_of_list_ascii (strip_chars (list_ascii_of_string s)) in
      if s' =s? EmptyString then None
      else if has_dot s' then option_map py_int (py_float s')
      else py_int_str s'
  end.

(* ------------------------------------------------------------------ *)
(** ** Risk budgets (lines 696-709) *)

(** The [acct] dict: numeric account-summary values by tag; empty or
    unparsable values are skipped, a later row overrides an earlier one. *)
Definition acct_of (rows : list (string * option string)) : gmap string Q :=
  fold_left (fun acct r =>
      match snd r with
      | None => acct
      | Some v =>
          if v =s? EmptyString then acct
          else match py_float (remove_commas v) with
               | Some q => <[fst r := q]> acct
               | None => acct
               end
      end) rows ∅.

(** [acct.get("BuyingPower", acct.get("AvailableFunds", 0.0))] *)
Definition buying_power (acct : gmap string Q) : Q :=
  match acct !! "BuyingPower" with
  | Some q => q
  | None => match acct !! "AvailableFunds" with
            | Some q => q
            | None => 0
            end
  end.

Definition max_trade_risk (cfg : RiskConfig) (rows : list (string * option string)) : Q :=
  buying_power (acct_of rows) * per_trade_risk_pct cfg.

Definition max_day_risk (cfg : RiskConfig) (rows : list (string * option string)) : Q :=
  buying_power (acct_of rows) * per_day_risk_pct cfg.

(** The preflight dollar risk of lines 804-806. *)
Definition dollar_risk (cfg : RiskConfig) (entry_price : Q) : Q :=
  let stop_price_for_math := entry_price * (1 - preflight_stop_pct cfg) in
  let risk_per_share := entry_price - stop_price_for_math in
  risk_per_share * inject_Z (entry_qty cfg).

(** [dollar_risk > max_trade_risk]: the preflight check denies. *)
Definition preflight_denies (cfg : RiskConfig) (mtr entry_price : Q) : bool :=
  Qlt_bool mtr (dollar_risk cfg entry_price).

(* ------------------------------------------------------------------ *)
(** ** Signal store *)

(** The row returned by
    [SELECT * FROM stock_execution_signals_5m WHERE symbol = ?
     AND trade_signal = TRUE ORDER BY timestamp DESC LIMIT 1]
    (among rows sharing the greatest timestamp, the first one). *)
Definition latest_signal_row (symbol : string) (rows : list SignalRow) : option SignalRow :=
  fold_left (fun acc r =>
      if (sig_symbol r =s? symbol) && sig_trade_signal r then
        match acc with
        | Some a => if (sig_timestamp a <? sig_timestamp r)%Z then Some r else acc
        | None => Some r
        end
      else acc) rows None.

(** [load_latest_signal(symbol)]: a failed read is logged and yields an
    empty frame. *)
Definition load_latest_signal (symbol : string) : M (option SignalRow) :=
  b <- ask ;;
  match b_db b with
  | Some rows => ret (latest_signal_row symbol rows)
  | None => log_error ;; ret None
  end.

(* ------------------------------------------------------------------ *)
(** ** Daily-loss kill switch *)

(** The [try] body of the liquidation loop for one position. *)
Definition liquidate_one (p : Position) : M unit :=
  try_except
    (let qty := py_int (p_position p) in
     if (0 <? qty)%Z then place_market_sell (p_conid p) qty true ;; ret tt
     else ret tt)
    (fun _ => log_error).

(** [close_all_stock_positions(allow)] *)
Definition close_all_stock_positions (allow : bool) : M unit :=
  if negb allow then ret tt
  else
    ps <- get_positions ;;
    for_each liquidate_one ps.

(** [enforce_daily_loss_killswitch(max_day_risk, allow_exits)]: [true]
    allows new entries. *)
Definition enforce_daily_loss_killswitch (max_day_risk : Q) (allow_exits : bool) : M bool :=
  daily_pnl <- get_daily_pnl ;;
  match daily_pnl with
  | None => ret true
  | Some d =>
      if Qle_bool d (- max_day_risk) then
        close_all_stock_positions allow_exits ;; ret false
      else ret true
  end.

(* ------------------------------------------------------------------ *)
(** ** Entry gates (lines 730-761) *)

(** Working trades of [ib.trades()] that are entry orders. *)
Definition open_entry_trades (ts : list Trade) : list Trade :=
  List.filter is_entry_order_trade (List.filter (fun t => working_status (t_status t)) ts).

(** The minimum-order-age loop: some open entry order has a locally
    tracked submit time younger than [min_order_age_seconds]. *)
Definition age_gate_hit (cfg : RiskConfig) (now : Q) (submit_time : gmap Z Q)
  (oet : list Trade) : bool :=
  existsb (fun t => match submit_time !! orderId (t_order t) with
                    | Some ts => Qlt_bool (now - ts) (min_order_age_seconds cfg)
                    | None => false
                    end) oet.

(** [allow_entries] after the open-order cap and the order-age gate. *)
Definition entry_gates (cfg : RiskConfig) (allow_entries : bool) (ts : list Trade)
  (submit_time : gmap Z Q) (now : Q) : bool :=
  let oet := open_entry_trades ts in
  allow_entries
  && negb (max_open_orders cfg <=? Z.of_nat (length oet))%Z
  && negb (age_gate_hit cfg now submit_time oet).

(** [_already_long_conid(conid)] *)
Definition already_long_conid (conid : Z) : M bool :=
  ps <- get_positions ;;
  ret (existsb (fun p => bool_decide (p_conid p = conid) && Qlt_bool 0 (p_position p)) ps).

(* ------------------------------------------------------------------ *)
(** ** Signal, preflight and entry (lines 766-853) *)

Section Run.
Variable e : Engine.
Let cfg := risk e.

(** The entry part of [run]; [false] when it executes [return] (which
    skips the position management below), [true] when it falls through. *)
Definition entry_section (symbol : string) (allow_entries allow_exits : bool)
  (mtr : Q) : M bool :=
  df <- load_latest_signal symbol ;;
  match df with
  | None => ret true
  | Some row =>
      inc "signal" ;;
      match safe_int (sig_con_id row) with
      | None => log_error ;; ret false
      | Some conid =>
          al <- already_long_conid conid ;;
          if al then ret true
          else if negb allow_entries then ret true
          else
            let qty := entry_qty cfg in
            ep <- get_mark_price_snapshot conid ;;
            match ep with
            | None => inc "skips_no_price" ;; ret false
            | Some entry_price =>
                if Qle_bool entry_price 0 then inc "skips_no_price" ;; ret false
                else if preflight_denies cfg mtr entry_price then ret false
                else
                  tr <- place_buy_entry conid qty allow_entries ;;
                  match tr with
                  | None => ret true
                  | Some _ =>
                      inc "entry" ;;
                      ts <- trades ;;
                      (if negb (has_working_trailing_sell ts conid)
                       then place_trailing_stop cfg conid qty allow_exits ;; ret tt
                       else ret tt) ;;
                      ret true
                  end
            end
      end
  end.

(* ------------------------------------------------------------------ *)
(** ** Position management (lines 861-936) *)

(** [+0.5% -> breakeven stop at entry (only once)] *)
Definition pm_be_step (conid qty : Z) (entry ret_pct : Q) (allow_exits : bool) : M unit :=
  ts <- trades ;;
  if Qle_bool 0.5 ret_pct && negb (has_working_breakeven_stop ts conid) then
    inc "be" ;; place_breakeven_stop conid qty entry allow_exits ;; ret tt
  else ret tt.

(** [+1.0% -> sell 1 (only if you have >=2, only once)] *)
Definition pm_tp1_step (conid qty : Z) (ret_pct : Q) (allow_exits : bool) : M unit :=
  ts <- trades ;;
  if Qle_bool 1 ret_pct && (2 <=? qty)%Z && negb (has_working_scaleout_sell ts conid) then
    inc "tp1" ;; place_sell_scaleout_1 conid allow_exits ;; ret tt
  else ret tt.

(** [Safety: ensure trailing exists (WORKING only)] *)
Definition pm_trail_step (conid qty : Z) (allow_exits : bool) : M unit :=
  ts <- trades ;;
  if negb (has_working_trailing_sell ts conid) then
    inc "trail_ensure" ;; place_trailing_stop cfg conid qty allow_exits ;; ret tt
  else ret tt.

(** The body of the [try] for one position. *)
Definition pm_position (allow_exits : bool) (p : Position) : M unit :=
  let qty := py_int (p_position p) in
  if (qty <=? 0)%Z then ret tt
  else
    let conid := p_conid p in
    match entry_from_position p with
    | None => ret tt
    | Some entry =>
        mark <- get_mark_price_snapshot conid ;;
        match mark with
        | None => ret tt
        | Some m =>
            if Qle_bool m 0 then ret tt
            else
              let ret_pct := (m - entry) / entry * 100 in
              pm_be_step conid qty entry ret_pct allow_exits ;;
              pm_tp1_step conid qty ret_pct allow_exits ;;
              pm_trail_step conid qty allow_exits
        end
    end.

(** [for p in self.get_positions(): try: ... except: log_error; continue] *)
Definition position_management (allow_exits : bool) : M unit :=
  ps <- get_positions ;;
  for_each (fun p => try_except (pm_position allow_exits p) (fun _ => log_error)) ps.

(* ------------------------------------------------------------------ *)
(** ** [run(symbol)] and [main_execution] *)

(** The body of [run]'s [try] (LOG_LEVEL=INFO: the DEBUG-only snapshot
    printing is not modelled). *)
Definition run_body (symbol : string) : M unit :=
  connect ;;
  let allow_orders := execute_trades_default e in
  let allow_exits := allow_orders || allow_exits_when_killed e in
  let allow_entries := allow_orders in
  rows <- accountSummary ;;
  let mtr := max_trade_risk cfg rows in
  let mdr := max_day_risk cfg rows in
  ks <- (if allow_entries then enforce_daily_loss_killswitch mdr allow_exits
         else ret false) ;;
  ts <- trades ;;
  st <- get ;;
  b <- ask ;;
  let allow_entries := entry_gates cfg ks ts (s_submit_time st) (b_now b) in
  cont <- entry_section symbol allow_entries allow_exits mtr ;;
  if cont then
    position_management allow_exits ;;
    modify (set_pm_logged true)
  else ret tt.

(** [run(symbol)]: [_reset_stats], then [try: ... finally: _print_run_summary()]. *)
Definition run (symbol : string) : M unit :=
  reset_stats symbol ;;
  try_finally (run_body symbol) print_run_summary.

End Run.


(* ------------------------------------------------------------------ *)
(** ** Observations used by the statements *)

(** The numeric value of an account-summary row, as the [acct] loop reads it. *)
Definition row_numeric (r : string * option string) : option Q :=
  match snd r with
  | None => None
  | Some v => if v =s? EmptyString then None else py_float (remove_commas v)
  end.

(** The numeric values reported for [tag], in row order. *)
Fixpoint numeric_tag_values (tag : string) (rows : list (string * option string)) : list Q :=
  match rows with
  | [] => []
  | r :: rs =>
      if fst r =s? tag then
        match row_numeric r with
        | Some q => q :: numeric_tag_values tag rs
        | None => numeric_tag_values tag rs
        end
      else numeric_tag_values tag rs
  end.

(** The budget base as the specification words it: buying power, falling
    back to available funds, and to 0 when neither is reported as a number
    (the last reported value of a tag wins). *)
Definition spec_buying_power (rows : list (string * option string)) : Q :=
  match last (numeric_tag_values "BuyingPower" rows) with
  | Some q => q
  | None => match last (numeric_tag_values "AvailableFunds" rows) with
            | Some q => q
            | None => 0
            end
  end.

(** A row [load_latest_signal(symbol)] may select. *)
Definition signal_match (symbol : string) (r : SignalRow) : bool :=
  (sig_symbol r =s? symbol) && sig_trade_signal r.

(** The instrument, side, type and size of a submitted order. *)
Definition order_shape (t : Trade) : option Z * string * string * Z :=
  (t_contract t, action (t_order t), orderType (t_order t), totalQuantity (t_order t)).

(** The market sell the liquidation submits for a position. *)
Definition liquidation_shape (p : Position) : option Z * string * string * Z :=
  (Some (p_conid p), "SELL", "MKT", py_int (p_position p)).

(** The stock positions whose [int(position)] is positive. *)
Definition liquidated_positions (ps : list Position) : list Position :=
  List.filter (fun p => (0 <? py_int (p_position p))%Z) (positions_STK ps).

(** The orders each classifier looks for, for instrument [c]. *)
Definition be_kind (c : Z) (t : Trade) : bool :=
  match t_contract t with Some c' => bool_decide (c' = c) | None => false end
  && (action (t_order t) =s? "SELL")
  && ((orderType (t_order t) =s? "STP") || (orderType (t_order t) =s? "STOP")).

Definition so_kind (c : Z) (t : Trade) : bool :=
  match t_contract t with Some c' => bool_decide (c' = c) | None => false end
  && (action (t_order t) =s? "SELL")
  && ((orderType (t_order t) =s? "MKT") || (orderType (t_order t) =s? "LMT")).

Definition tr_kind (c : Z) (t : Trade) : bool :=
  bool_decide (default (-1)%Z (t_contract t) = c)
  && (orderType (t_order t) =s? "TRAIL") && (action (t_order t) =s? "SELL").

(** How many of [ts] satisfy [k]. *)
Definition count_kind (k : Trade -> bool) (ts : list Trade) : nat :=
  length (List.filter k ts).

(** A scale-out sell of any instrument (a SELL MKT/LMT order). *)
Definition is_scaleout_order (t : Trade) : bool :=
  (action (t_order t) =s? "SELL")
  && ((orderType (t_order t) =s? "MKT") || (orderType (t_order t) =s? "LMT")).

(** The state after [ib.placeOrder] accepted [o] and [_track_trade] ran. *)
Definition placed_state (b : Broker) (s : St) (conid : Z) (o : Order) : St :=
  let t := mkTrade (Some conid) (set_orderId (s_next_id s) o) (b_status b) in
  set_submit_time (<[s_next_id s := b_now b]> (s_submit_time s))
    (set_next_id (s_next_id s + 1)
       (set_trades_placed (s_trades s ++ [t]) (s_placed s ++ [t]) s)).

(** [s'] extends [s] by the orders [new], in both [ib.trades()] and the
    submission log. *)
Definition grows (s s' : St) (new : list Trade) : Prop :=
  s_placed s' = s_placed s ++ new /\ s_trades s' = s_trades s ++ new.

(** The shape of one order placed by a step for [conid]. *)
Definition step_order (b : Broker) (conid : Z) (tys : list string) (t : Trade) : Prop :=
  t_status t = b_status b /\ t_contract t = Some conid /\
  action (t_order t) = "SELL" /\ orderType (t_order t) ∈ tys.

(** The three kinds of protective order position management maintains. *)
Inductive kind := KBe | KSo | KTr.

Definition kind_pred (k : kind) (c : Z) : Trade -> bool :=
  match k with KBe => be_kind c | KSo => so_kind c | KTr => tr_kind c end.

(** The classifier that guards the step of kind [k]. *)
Definition kind_has (k : kind) (ts : list Trade) (c : Z) : bool :=
  match k with
  | KBe => has_working_breakeven_stop ts c
  | KSo => has_working_scaleout_sell ts c
  | KTr => has_working_trailing_sell ts c
  end.

(** From [s0] to [s] only working orders were added, at most one of kind
    [k] for [c], and none while one was already working in [s0]. *)
Definition kind_inv (k : kind) (c : Z) (s0 s : St) : Prop :=
  exists new, grows s0 s new /\
    Forall (fun t => working_status (t_status t) = true) new /\
    (count_kind (kind_pred k c) new <= 1)%nat /\
    (count_kind (kind_pred k c) new <> 0%nat -> kind_has k (s_trades s0) c = false).

(** [m] keeps [kind_inv] whatever its outcome. *)
Definition keeps (k : kind) (c : Z) (b : Broker) {A} (m : M A) : Prop :=
  forall s, kind_inv k c s (snd (m b s)).

(** A buy order (the entry orders [place_buy_entry] submits). *)
Definition is_buy_order (t : Trade) : bool := action (t_order t) =s? "BUY".

(** From [s0] to [s] the ["entry"] counter grew by the number of buy
    orders submitted. *)
Definition entry_inv (s0 s : St) : Prop :=
  exists new, grows s0 s new /\
    stat "entry" (s_stats s) = (stat "entry" (s_stats s0) + Z.of_nat (count_kind is_buy_order new))%Z.

(** [m] keeps [entry_inv] whatever its outcome. *)
Definition ekeeps (b : Broker) {A} (m : M A) : Prop :=
  forall s, entry_inv s (snd (m b s)).



(** From [s0] to [s] every order submitted satisfies [P]. *)
Definition placed_only (P : Trade -> Prop) (s0 s : St) : Prop :=
  exists new, grows s0 s new /\ Forall P new.

(** [m] submits only orders satisfying [P], whatever its outcome. *)
Definition okeeps (P : Trade -> Prop) (b : Broker) {A} (m : M A) : Prop :=
  forall s, placed_only P s (snd (m b s)).

(** The orders position management may submit for a held position [p]:
    a stop at the entry price for the whole [int(position)], a one-share
    scale-out sell when [int(position) >= 2], or a trailing stop for the
    whole [int(position)] with the configured percent and time in force. *)
Definition pm_order_for (cfg : RiskConfig) (p : Position) (o : Order) : Prop :=
  action o = "SELL" /\
  ((orderType o = "STP" /\ totalQuantity o = py_int (p_position p) /\
    auxPrice o = entry_from_position p /\ outsideRth o = true) \/
   (orderType o ∈ ["MKT"; "LMT"] /\ totalQuantity o = 1%Z /\
    (2 <= py_int (p_position p))%Z) \/
   (orderType o = "TRAIL" /\ totalQuantity o = py_int (p_position p) /\
    trailingPercent o = Some (trail_pct cfg * 100) /\ tif o = trail_tif cfg)).

(** A trade position management may submit: one of the orders above for
    a stock position of [ib.positions()] with a positive [int(position)]. *)
Definition pm_order (cfg : RiskConfig) (b : Broker) (t : Trade) : Prop :=
  t_status t = b_status b /\
  exists p, p ∈ positions_STK (b_positions b) /\ t_contract t = Some (p_conid p) /\
    (0 < py_int (p_position p))%Z /\ pm_order_for cfg p (t_order t).

(** [m] returns normally and leaves the ["errs"] counter as it was. *)
Definition errs_safe (b : Broker) {A} (m : M A) : Prop :=
  forall s, exists a, fst (m b s) = Ok a /\
    stat "errs" (s_stats (snd (m b s))) = stat "errs" (s_stats s).

(** A position whose management reaches [get_mark_price_snapshot]
    ([int(position) > 0] and a positive [avgCost]) while its market-data
    request fails. *)
Definition pm_quote_missing (b : Broker) (p : Position) : bool :=
  (0 <? py_int (p_position p))%Z
  && (if entry_from_position p then true else false)
  && (if b_quote b (p_conid p) then false else true).

(** Python [str(n)] for an [int] [n]: an optional minus sign and the
    decimal digits of [|n|], most significant first ([fuel] bounds the
    number of divisions by 10). *)
Fixpoint decimal_digits (fuel : nat) (n : Z) (acc : list Z) : list Z :=
  match fuel with
  | O => n :: acc
  | S f => if (n <? 10)%Z then n :: acc
           else decimal_digits f (n / 10)%Z ((n mod 10)%Z :: acc)
  end.

Definition digit_char (d : Z) : Ascii.ascii := Ascii.ascii_of_nat (48 + Z.to_nat d).

Definition py_str_int (n : Z) : string :=
  string_of_list_ascii
    ((if (n <? 0)%Z then ["-"%char] else [])
     ++ map digit_char (decimal_digits (Z.to_nat (Z.abs n)) (Z.abs n) [])).

(* ------------------------------------------------------------------ *)
(** ** Concrete scenarios *)

(** A fresh engine/broker state: no trades, no tracked orders. *)
Definition st_empty : St := mkSt [] 1 ∅ ∅ None false [] [].

(** Signal rows for XYZ: a newer row without a signal, an older one with. *)
Definition rows_stale_signal : list SignalRow :=
  [mkSignalRow "XYZ" 2 (VInt 777) false; mkSignalRow "XYZ" 1 (VInt 777) true].

(** A broker in regular hours: buying power 100,000, daily PnL 0, no
    positions, every instrument quoted 49.99/50.01. *)
Definition brk_rth (db : list SignalRow) : Broker := {|
  b_connect_ok := true; b_account := Some [("BuyingPower", Some "100,000.00")];
  b_daily_pnl := Some 0; b_positions := [];
  b_quote := fun _ => Some (mkQuote (Some 49.99) (Some 50.01) None None);
  b_rth := true; b_place_ok := true; b_status := "Submitted";
  b_now := 1000; b_db := Some db |}.

(** A broker whose account holds half a share of instrument 5 and whose
    daily PnL is -150. *)
Definition brk_half_share : Broker := {|
  b_connect_ok := true; b_account := Some []; b_daily_pnl := Some (-150);
  b_positions := [mkPosition 5 "STK" (1 # 2) (Some 20)];
  b_quote := fun _ => Some (mkQuote None None (Some 20) None);
  b_rth := true; b_place_ok := true; b_status := "Submitted";
  b_now := 0; b_db := Some [] |}.

(** A broker outside regular hours whose last trade price is 50. *)
Definition brk_after_hours : Broker := {|
  b_connect_ok := true; b_account := Some []; b_daily_pnl := None;
  b_positions := []; b_quote := fun _ => Some (mkQuote None None (Some 50) None);
  b_rth := false; b_place_ok := true; b_status := "Submitted";
  b_now := 0; b_db := Some [] |}.

(** A broker in regular hours holding two shares of instrument 7 bought
    at 100 and now quoted at 102 (+2%); no signal rows. *)
Definition brk_pm (db : list SignalRow) : Broker := {|
  b_connect_ok := true; b_account := Some [("BuyingPower", Some "100,000.00")];
  b_daily_pnl := Some 0; b_positions := [mkPosition 7 "STK" 2 (Some 100)];
  b_quote := fun _ => Some (mkQuote None None (Some 102) None);
  b_rth := true; b_place_ok := true; b_status := "Submitted";
  b_now := 1000; b_db := Some db |}.

(** A signal row for XYZ whose [con_id] is NULL. *)
Definition rows_null_conid : list SignalRow := [mkSignalRow "XYZ" 1 VNone true].

(** [brk_pm] with a buying power of 100 (risk budget 0.50 per trade),
    and a signal for instrument 8. *)
Definition brk_pm_small : Broker :=
  let b := brk_pm [mkSignalRow "XYZ" 1 (VInt 8) true] in {|
  b_connect_ok := b_connect_ok b; b_account := Some [("BuyingPower", Some "100")];
  b_daily_pnl := b_daily_pnl b; b_positions := b_positions b; b_quote := b_quote b;
  b_rth := b_rth b; b_place_ok := b_place_ok b; b_status := b_status b;
  b_now := b_now b; b_db := b_db b |}.

(** A broker in regular hours holding 2 shares each of instruments 9, 7
    and 11 bought at 100; only instrument 7 has market data (102). *)
Definition brk_gaps : Broker := {|
  b_connect_ok := true; b_account := Some [("BuyingPower", Some "100,000.00")];
  b_daily_pnl := Some 0;
  b_positions := [mkPosition 9 "STK" 2 (Some 100); mkPosition 7 "STK" 2 (Some 100);
                  mkPosition 11 "STK" 2 (Some 100)];
  b_quote := fun c => if (c =? 7)%Z then Some (mkQuote None None (Some 102) None) else None;
  b_rth := true; b_place_ok := true; b_status := "Submitted";
  b_now := 1000; b_db := Some [] |}.


(* ================================================================== *)
(** * Properties *)

Lemma acct_of_fold_lookup (tag : string) rows (acc : gmap string Q) :
  fold_left (fun acct r =>
      match snd r with
      | None => acct
      | Some v =>
          if v =s? EmptyString then acct
          else match py_float (remove_commas v) with
               | Some q => <[fst r := q]> acct
               | None => acct
               end
      end) rows acc !! tag
  = match last (numeric_tag_values tag rows) with
    | Some q => Some q
    | None => acc !! tag
    end.
Proof.
  revert acc. induction rows as [|[t v] rs IH]; intros acc; simpl; [reflexivity|].
  rewrite IH. unfold row_numeric; simpl.
  destruct (String.eqb_spec t tag) as [->|Hne].
  - destruct v as [v|]; simpl; [|reflexivity].
    destruct (v =s? EmptyString); [reflexivity|].
    destruct (py_float (remove_commas v)) as [q|] eqn:Hq; [|reflexivity].
    rewrite last_cons.
    destruct (last (numeric_tag_values tag rs)); [reflexivity|].
    by rewrite lookup_insert_eq.
  - destruct (last (numeric_tag_values tag rs)); [reflexivity|].
    destruct v as [v|]; [|reflexivity].
    destruct (v =s? EmptyString); [reflexivity|].
    destruct (py_float (remove_commas v)); [|reflexivity].
    by rewrite lookup_insert_ne.
Qed.

Lemma acct_of_lookup (tag : string) rows :
  acct_of rows !! tag = last (numeric_tag_values tag rows).
Proof.
  unfold acct_of. rewrite acct_of_fold_lookup.
  by destruct (last (numeric_tag_values tag rows)).
Qed.

Lemma buying_power_spec rows : buying_power (acct_of rows) = spec_buying_power rows.
Proof.
  unfold buying_power, spec_buying_power. by rewrite !acct_of_lookup.
Qed.

Lemma dollar_risk_pos (cfg : RiskConfig) (p : Q) :
  0 < preflight_stop_pct cfg -> (0 < entry_qty cfg)%Z -> 0 < p ->
  0 < dollar_risk cfg p.
Proof.
  intros Hs Hq Hp. unfold dollar_risk.
  assert (E : p - p * (1 - preflight_stop_pct cfg) == p * preflight_stop_pct cfg)
    by ring.
  rewrite E.
  apply Qmult_lt_0_compat; [by apply Qmult_lt_0_compat|].
  change 0 with (inject_Z 0). by rewrite <- Zlt_Qlt.
Qed.

(** C5: the per-trade risk ceiling is B × p, where B is the buying power,
    falling back to available funds and then to 0; when B = 0 the ceiling
    is 0 and the preflight risk check denies every entry at a positive
    price (for a positive preflight stop percentage and entry size, as in
    the default [RiskConfig]). *)
Theorem max_trade_risk_budget (cfg : RiskConfig) (rows : list (string * option string)) :
  0 < preflight_stop_pct cfg -> (0 < entry_qty cfg)%Z ->
  max_trade_risk cfg rows = spec_buying_power rows * per_trade_risk_pct cfg /\
  (spec_buying_power rows == 0 ->
   max_trade_risk cfg rows == 0 /\
   forall entry_price, 0 < entry_price ->
     preflight_denies cfg (max_trade_risk cfg rows) entry_price = true).
Proof.
  intros Hs Hq. unfold max_trade_risk. rewrite buying_power_spec.
  split; [reflexivity|]. intros H0.
  assert (Hz : spec_buying_power rows * per_trade_risk_pct cfg == 0)
    by (rewrite H0; ring).
  split; [exact Hz|]. intros p Hp.
  unfold preflight_denies, Qlt_bool. apply negb_true_iff.
  destruct (Qle_bool (dollar_risk cfg p) _) eqn:E; [|reflexivity].
  apply Qle_bool_iff in E. rewrite Hz in E.
  pose proof (dollar_risk_pos cfg p Hs Hq Hp). exfalso.
  by apply (Qlt_not_le _ _ H).
Qed.

Lemma max_trade_risk_budget_witness :
  (0 < preflight_stop_pct default_risk /\ (0 < entry_qty default_risk)%Z) /\
  max_trade_risk default_risk [("BuyingPower", Some "abc"); ("AvailableFunds", Some "1,000")]
  = spec_buying_power [("BuyingPower", Some "abc"); ("AvailableFunds", Some "1,000")]
    * per_trade_risk_pct default_risk.
Proof.
  split; [split; [reflexivity|reflexivity]|].
  apply (max_trade_risk_budget default_risk _); reflexivity.
Defined.

(** C6: [place_buy_entry] (entries allowed, the broker accepting orders):
    outside regular hours with a mark price [m > 0] it submits a LIMIT BUY
    at [round(m * 1.002, 2)] flagged [outsideRth]; outside regular hours
    without a mark price it submits nothing; during regular hours it
    submits a MARKET BUY with no price field. *)
Theorem place_buy_entry_session_routing (conid qty : Z) (b : Broker) (s : St) :
  b_place_ok b = true ->
  (b_rth b = false -> forall m, (b_quote b conid ≫= mark_of_quote) = Some m -> 0 < m ->
     s_placed (snd (place_buy_entry conid qty true b s))
     = s_placed s ++ [mkTrade (Some conid)
                        (mkOrder (s_next_id s) "BUY" "LMT" qty (Some (round2 (m * 1.002)))
                           None None EmptyString true) (b_status b)]) /\
  (b_rth b = false -> (b_quote b conid ≫= mark_of_quote) = None ->
     s_placed (snd (place_buy_entry conid qty true b s)) = s_placed s) /\
  (b_rth b = true ->
     s_placed (snd (place_buy_entry conid qty true b s))
     = s_placed s ++ [mkTrade (Some conid)
                        (mkOrder (s_next_id s) "BUY" "MKT" qty None None None EmptyString false)
                        (b_status b)]).
Proof.
  intros Hok.
  unfold place_buy_entry, place_and_track, bind, ret, is_rth_now,
    get_mark_price_snapshot, placeOrder, track_trade, inc, modify; cbn -[mark_of_quote round2].
  split; [|split].
  - intros Hr m Hm Hpos. rewrite Hr.
    destruct (b_quote b conid) as [qt|]; cbn in Hm; [|discriminate].
    rewrite Hm. destruct (Qle_bool m 0) eqn:E.
    + apply Qle_bool_iff in E. exfalso. by apply (Qlt_not_le _ _ Hpos).
    + cbn. by rewrite Hok.
  - intros Hr Hm. rewrite Hr.
    destruct (b_quote b conid) as [qt|]; cbn in Hm; [|reflexivity].
    by rewrite Hm.
  - intros Hr. rewrite Hr. cbn. by rewrite Hok.
Qed.

Lemma place_buy_entry_session_routing_witness :
  b_place_ok brk_after_hours = true /\
  s_placed (snd (place_buy_entry 777 2 true brk_after_hours st_empty))
  = [mkTrade (Some 777%Z) (mkOrder 1 "BUY" "LMT" 2 (Some (round2 (50 * 1.002)))
                              None None EmptyString true) "Submitted"].
Proof.
  split; [reflexivity|].
  destruct (place_buy_entry_session_routing 777 2 brk_after_hours st_empty eq_refl)
    as [H _].
  apply (H eq_refl 50); reflexivity.
Defined.

Lemma entry_section_denied_places_nothing (e : Engine) (symbol : string)
  (allow_exits : bool) (mtr : Q) (b : Broker) (s : St) :
  s_placed (snd (entry_section e symbol false allow_exits mtr b s)) = s_placed s.
Proof.
  unfold entry_section, load_latest_signal, already_long_conid, get_positions,
    bind, ret, ask, log_error, inc, modify.
  cbn -[safe_int].
  destruct (b_db b) as [rows|]; cbn -[safe_int]; [|reflexivity].
  destruct (latest_signal_row symbol rows) as [row|]; cbn -[safe_int]; [|reflexivity].
  destruct (safe_int (sig_con_id row)); cbn; [|reflexivity].
  by destruct (existsb _ _).
Qed.

(** C9: the open-entry-order cap and the order-age gate range over the
    working BUY non-trailing orders of every instrument: such an order
    (whatever its contract) is counted toward [max_open_orders]; if its id
    is tracked with a submit time younger than [min_order_age_seconds],
    the gates deny entry, and an entry section run with entries denied
    submits no order; an untracked order id leaves the age gate unchanged. *)
Theorem entry_gates_all_instruments (e : Engine) (allow : bool) (t : Trade)
  (ts : list Trade) (submit_time : gmap Z Q) (now : Q) :
  working_status (t_status t) = true -> is_entry_order_trade t = true ->
  length (open_entry_trades (t :: ts)) = S (length (open_entry_trades ts)) /\
  ((max_open_orders (risk e) <= Z.of_nat (length (open_entry_trades (t :: ts))))%Z ->
     entry_gates (risk e) allow (t :: ts) submit_time now = false) /\
  (forall ts0, submit_time !! orderId (t_order t) = Some ts0 ->
     now - ts0 < min_order_age_seconds (risk e) ->
     entry_gates (risk e) allow (t :: ts) submit_time now = false) /\
  (submit_time !! orderId (t_order t) = None ->
     age_gate_hit (risk e) now submit_time (open_entry_trades (t :: ts))
     = age_gate_hit (risk e) now submit_time (open_entry_trades ts)) /\
  (forall symbol allow_exits mtr b s,
     s_placed (snd (entry_section e symbol false allow_exits mtr b s)) = s_placed s).
Proof.
  intros Hw He.
  unfold open_entry_trades. cbn [List.filter]. rewrite Hw. cbn [List.filter].
  rewrite He. split; [reflexivity|]. split; [|split; [|split]].
  - intros Hle. unfold entry_gates, open_entry_trades. cbn [List.filter].
    rewrite Hw. cbn [List.filter]. rewrite He.
    apply Z.leb_le in Hle. rewrite Hle. by rewrite andb_false_r.
  - intros ts0 Hst Hyoung. unfold entry_gates, open_entry_trades, age_gate_hit.
    cbn [List.filter]. rewrite Hw. cbn [List.filter]. rewrite He. cbn [existsb].
    rewrite Hst. unfold Qlt_bool.
    destruct (Qle_bool (min_order_age_seconds (risk e)) (now - ts0)) eqn:E.
    + apply Qle_bool_iff in E. exfalso. by apply (Qlt_not_le _ _ Hyoung).
    + cbn. by rewrite !andb_false_r.
  - intros Hnone. unfold age_gate_hit. cbn [existsb]. by rewrite Hnone.
  - intros. apply entry_section_denied_places_nothing.
Qed.

Lemma entry_gates_all_instruments_witness :
  (working_status "Submitted" = true /\
   is_entry_order_trade (mkTrade (Some 42%Z) (mkOrder 7 "BUY" "LMT" 2 (Some 10) None None
                                                 EmptyString true) "Submitted") = true) /\
  entry_gates default_risk true
    [mkTrade (Some 42%Z) (mkOrder 7 "BUY" "LMT" 2 (Some 10) None None EmptyString true) "Submitted"]
    (<[7%Z := 100]> ∅) 160 = false.
Proof.
  split; [split; reflexivity|].
  destruct (entry_gates_all_instruments default_engine true
              (mkTrade (Some 42%Z) (mkOrder 7 "BUY" "LMT" 2 (Some 10) None None EmptyString true)
                 "Submitted") [] (<[7%Z := 100]> ∅) 160 eq_refl eq_refl)
    as (_ & _ & H & _).
  apply (H 100); [reflexivity|reflexivity].
Defined.

Lemma latest_fold_none (symbol : string) rows acc :
  fold_left (fun acc r =>
      if (sig_symbol r =s? symbol) && sig_trade_signal r then
        match acc with
        | Some a => if (sig_timestamp a <? sig_timestamp r)%Z then Some r else acc
        | None => Some r
        end
      else acc) rows acc = None <->
  acc = None /\ forall r, In r rows -> signal_match symbol r = false.
Proof.
  revert acc. induction rows as [|x rs IH]; intros acc; cbn.
  - split; [by intros ->|by intros [-> _]].
  - rewrite IH. unfold signal_match.
    destruct ((sig_symbol x =s? symbol) && sig_trade_signal x) eqn:Ex.
    + split; [intros [Ha _]; destruct acc as [a|]; [destruct (_ <? _)%Z|]; discriminate|].
      intros [_ H]. specialize (H x (or_introl eq_refl)). congruence.
    + split.
      * intros [-> H]. split; [reflexivity|]. intros r [<-|Hr]; [exact Ex|by apply H].
      * intros [-> H]. split; [reflexivity|]. intros r Hr. apply H. by right.
Qed.

Lemma latest_fold_some (symbol : string) rows acc r :
  fold_left (fun acc r =>
      if (sig_symbol r =s? symbol) && sig_trade_signal r then
        match acc with
        | Some a => if (sig_timestamp a <? sig_timestamp r)%Z then Some r else acc
        | None => Some r
        end
      else acc) rows acc = Some r ->
  (acc = Some r \/ (In r rows /\ signal_match symbol r = true)) /\
  (forall a, acc = Some a -> (sig_timestamp a <= sig_timestamp r)%Z) /\
  (forall r', In r' rows -> signal_match symbol r' = true ->
     (sig_timestamp r' <= sig_timestamp r)%Z).
Proof.
  revert acc. induction rows as [|x rs IH]; intros acc H; cbn in H.
  - subst. split; [by left|]. split; [intros a [= ->]; lia|]. intros r' [].
  - apply IH in H as (H1 & H2 & H3). unfold signal_match in *.
    destruct ((sig_symbol x =s? symbol) && sig_trade_signal x) eqn:Ex.
    + destruct acc as [a|].
      * destruct (sig_timestamp a <? sig_timestamp x)%Z eqn:Elt.
        -- specialize (H2 x eq_refl). apply Z.ltb_lt in Elt.
           split; [destruct H1 as [[= <-]|[Hi Hm]]; right; [split; [by left|exact Ex]|split; [by right|exact Hm]]|].
           split; [intros a' [= <-]; lia|].
           intros r' [<-|Hr'] Hm; [lia|by apply H3].
        -- specialize (H2 a eq_refl). apply Z.ltb_ge in Elt.
           split; [destruct H1 as [H1|[Hi Hm]]; [by left|right; split; [by right|exact Hm]]|].
           split; [intros a' [= <-]; lia|].
           intros r' [<-|Hr'] Hm; [lia|by apply H3].
      * specialize (H2 x eq_refl).
        split; [destruct H1 as [[= <-]|[Hi Hm]]; right; [split; [by left|exact Ex]|split; [by right|exact Hm]]|].
        split; [discriminate|].
        intros r' [<-|Hr'] Hm; [lia|by apply H3].
    + split; [destruct H1 as [H1|[Hi Hm]]; [by left|right; split; [by right|exact Hm]]|].
      split; [exact H2|].
      intros r' [<-|Hr'] Hm; [congruence|by apply H3].
Qed.

(** C8 (counterexample): the newest XYZ row has [trade_signal = false],
    yet [run("XYZ")] reads the older [trade_signal = true] row and submits
    a BUY entry. *)
Lemma stale_true_signal_enters :
  In (mkSignalRow "XYZ" 2 (VInt 777) false) rows_stale_signal /\
  (forall r, In r rows_stale_signal -> sig_symbol r = "XYZ" -> (sig_timestamp r <= 2)%Z) /\
  existsb (fun t => action (t_order t) =s? "BUY")
    (s_placed (snd (run default_engine "XYZ" (brk_rth rows_stale_signal) st_empty))) = true.
Proof.
  split; [by left|]. split; [|vm_compute; reflexivity].
  intros r [<-|[<-|[]]] _; cbn; lia.
Qed.

(** C8 (as the code does it): [load_latest_signal(symbol)] yields the most
    recent row of [symbol] whose [trade_signal] is TRUE, ignoring rows
    whose [trade_signal] is FALSE; it yields nothing exactly when the
    symbol has no TRUE row, and then the entry section submits no order
    and falls through to position management. *)
Theorem load_latest_signal_latest_true (symbol : string) (rows : list SignalRow) :
  (latest_signal_row symbol rows = None <->
     forall r, In r rows -> signal_match symbol r = false) /\
  (forall r, latest_signal_row symbol rows = Some r ->
     In r rows /\ sig_symbol r = symbol /\ sig_trade_signal r = true /\
     forall r', In r' rows -> sig_symbol r' = symbol -> sig_trade_signal r' = true ->
       (sig_timestamp r' <= sig_timestamp r)%Z) /\
  (latest_signal_row symbol rows = None ->
     forall e allow_entries allow_exits mtr b s, b_db b = Some rows ->
     entry_section e symbol allow_entries allow_exits mtr b s = (Ok true, s)).
Proof.
  split; [|split].
  - unfold latest_signal_row. rewrite latest_fold_none.
    split; [by intros [_ H]|by intros H].
  - intros r H. unfold latest_signal_row in H.
    apply latest_fold_some in H as ([H1|[Hi Hm]] & _ & H3); [discriminate|].
    unfold signal_match in Hm. apply andb_true_iff in Hm as [Hs Ht].
    apply String.eqb_eq in Hs.
    split; [exact Hi|]. split; [exact Hs|]. split; [exact Ht|].
    intros r' Hr' Hs' Ht'. apply H3; [exact Hr'|].
    unfold signal_match. rewrite Hs', Ht'. by rewrite String.eqb_refl.
  - intros Hnone e allow_entries allow_exits mtr b s Hdb.
    unfold entry_section, load_latest_signal, bind, ask, ret. cbn.
    by rewrite Hdb, Hnone.
Qed.

Lemma liquidate_one_placed (b : Broker) (p : Position) (s : St) :
  exists new s',
    liquidate_one p b s = (Ok tt, s') /\
    s_placed s' = s_placed s ++ new /\
    map order_shape new =
      if b_place_ok b && (0 <? py_int (p_position p))%Z then [liquidation_shape p] else [].
Proof.
  unfold liquidate_one, try_except.
  destruct (0 <? py_int (p_position p))%Z eqn:Eq.
  - unfold place_market_sell, place_and_track, bind, placeOrder, track_trade, ret.
    cbn [negb]. destruct (b_place_ok b) eqn:Hok.
    + cbn. eexists [_], _. split; [reflexivity|]. split; [reflexivity|]. reflexivity.
    + unfold log_error, inc, modify. cbn. eexists [], _.
      split; [reflexivity|]. split; [by rewrite app_nil_r|reflexivity].
  - unfold ret. cbn. exists [], s. rewrite app_nil_r, andb_false_r. by split.
Qed.

Lemma close_all_for_each_placed (b : Broker) (ps : list Position) (s : St) :
  exists new s',
    for_each liquidate_one ps b s = (Ok tt, s') /\
    s_placed s' = s_placed s ++ new /\
    map order_shape new =
      if b_place_ok b then
        map liquidation_shape (List.filter (fun p => (0 <? py_int (p_position p))%Z) ps)
      else [].
Proof.
  revert s. induction ps as [|p ps IH]; intros s.
  - exists [], s. cbn. rewrite app_nil_r. by destruct (b_place_ok b).
  - cbn [for_each]. unfold bind at 1.
    destruct (liquidate_one_placed b p s) as (n1 & s1 & H1 & P1 & M1).
    rewrite H1. destruct (IH s1) as (n2 & s2 & H2 & P2 & M2).
    exists (n1 ++ n2), s2. split; [exact H2|]. split.
    + by rewrite P2, P1, app_assoc.
    + rewrite map_app, M1, M2. cbn [List.filter].
      destruct (b_place_ok b), (0 <? py_int (p_position p))%Z; reflexivity.
Qed.

(** C4 (where the code departs from the spec): with daily PnL -150 and
    [max_day_risk = 100], the kill switch denies entries but submits no
    market sell for a stock position of half a share, whose quantity is
    positive ([int(0.5) = 0] in [close_all_stock_positions]), although
    [_already_long_conid] counts that same position as long. *)
Lemma killswitch_keeps_fractional_share :
  b_daily_pnl brk_half_share = Some (-150) /\ -150 <= - (100) /\
  b_positions brk_half_share = [mkPosition 5 "STK" (1 # 2) (Some 20)] /\
  0 < 1 # 2 /\
  fst (enforce_daily_loss_killswitch 100 true brk_half_share st_empty) = Ok false /\
  s_placed (snd (enforce_daily_loss_killswitch 100 true brk_half_share st_empty)) = [] /\
  fst (already_long_conid 5 brk_half_share st_empty) = Ok true.
Proof. repeat split; vm_compute; try reflexivity; discriminate. Qed.

(** The kill switch as the code has it: with unmeasurable daily PnL it
    allows entries and changes nothing; with daily PnL above
    [-max_day_risk] it allows entries and changes nothing; with daily PnL
    at or below [-max_day_risk] it denies entries and, when exits are
    allowed and the broker accepts orders, submits exactly one market sell
    of [int(position)] shares for each stock position whose [int(position)]
    is positive, in position order (a placement that raises is logged and
    skipped). *)
Theorem enforce_daily_loss_killswitch_spec (max_day_risk : Q) (allow_exits : bool)
  (b : Broker) (s : St) :
  (b_daily_pnl b = None ->
     enforce_daily_loss_killswitch max_day_risk allow_exits b s = (Ok true, s)) /\
  (forall d, b_daily_pnl b = Some d -> - max_day_risk < d ->
     enforce_daily_loss_killswitch max_day_risk allow_exits b s = (Ok true, s)) /\
  (forall d, b_daily_pnl b = Some d -> d <= - max_day_risk ->
     exists new s',
       enforce_daily_loss_killswitch max_day_risk allow_exits b s = (Ok false, s') /\
       s_placed s' = s_placed s ++ new /\
       map order_shape new =
         if allow_exits && b_place_ok b
         then map liquidation_shape (liquidated_positions (b_positions b))
         else []).
Proof.
  unfold enforce_daily_loss_killswitch, get_daily_pnl, bind, ret.
  split; [|split].
  - intros H. cbn. by rewrite H.
  - intros d H Hlt. cbn. rewrite H.
    destruct (Qle_bool d (- max_day_risk)) eqn:E; [|reflexivity].
    apply Qle_bool_iff in E. exfalso. by apply (Qlt_not_le _ _ Hlt).
  - intros d H Hle. cbn. rewrite H.
    apply Qle_bool_iff in Hle. rewrite Hle.
    unfold close_all_stock_positions. destruct allow_exits; cbn.
    + unfold bind, get_positions.
      destruct (close_all_for_each_placed b (positions_STK (b_positions b)) s)
        as (new & s' & Hr & Hp & Hm).
      rewrite Hr. exists new, s'. split; [reflexivity|]. split; [exact Hp|].
      exact Hm.
    + unfold ret. exists [], s. split; [reflexivity|]. by rewrite app_nil_r.
Qed.

(* ------------------------------------------------------------------ *)
(** ** Lemmas on the classifiers and on order placement *)

Lemma has_working_breakeven_stop_kind (ts : list Trade) (c : Z) :
  has_working_breakeven_stop ts c = existsb (fun t => working_status (t_status t) && be_kind c t) ts.
Proof.
  unfold has_working_breakeven_stop, open_trades_for_conid, be_kind.
  induction ts as [|t ts IH]; [reflexivity|]. cbn.
  destruct (t_contract t) as [c'|]; cbn; [|by rewrite andb_false_r].
  destruct (bool_decide (c' = c)), (working_status (t_status t)); cbn; rewrite ?IH; reflexivity.
Qed.

Lemma has_working_scaleout_sell_kind (ts : list Trade) (c : Z) :
  has_working_scaleout_sell ts c = existsb (fun t => working_status (t_status t) && so_kind c t) ts.
Proof.
  unfold has_working_scaleout_sell, open_trades_for_conid, so_kind.
  induction ts as [|t ts IH]; [reflexivity|]. cbn.
  destruct (t_contract t) as [c'|]; cbn; [|by rewrite andb_false_r].
  destruct (bool_decide (c' = c)), (working_status (t_status t)); cbn; rewrite ?IH; reflexivity.
Qed.

Lemma has_working_trailing_sell_kind (ts : list Trade) (c : Z) :
  has_working_trailing_sell ts c = existsb (fun t => working_status (t_status t) && tr_kind c t) ts.
Proof.
  unfold has_working_trailing_sell, tr_kind.
  induction ts as [|t ts IH]; [reflexivity|]. cbn. rewrite IH.
  destruct (working_status (t_status t)), (orderType (t_order t) =s? "TRAIL"),
    (action (t_order t) =s? "SELL"), (bool_decide _); reflexivity.
Qed.

Lemma place_and_track_eq (conid : Z) (o : Order) (b : Broker) (s : St) :
  place_and_track conid o b s =
  if b_place_ok b
  then (Ok (Some (mkTrade (Some conid) (set_orderId (s_next_id s) o) (b_status b))),
        placed_state b s conid o)
  else (Raise "placeOrder", s).
Proof.
  unfold place_and_track, bind, placeOrder, track_trade, ret.
  by destruct (b_place_ok b).
Qed.

Lemma grows_placed_state (b : Broker) (s : St) (conid : Z) (o : Order) :
  grows s (placed_state b s conid o) [mkTrade (Some conid) (set_orderId (s_next_id s) o) (b_status b)].
Proof. split; reflexivity. Qed.

Lemma grows_nil (s : St) : grows s s [].
Proof. split; by rewrite app_nil_r. Qed.

Lemma grows_trans (s1 s2 s3 : St) (n1 n2 : list Trade) :
  grows s1 s2 n1 -> grows s2 s3 n2 -> grows s1 s3 (n1 ++ n2).
Proof.
  intros [P1 T1] [P2 T2]. split; [by rewrite P2, P1, app_assoc|by rewrite T2, T1, app_assoc].
Qed.

(* ------------------------------------------------------------------ *)
(** ** The three position-management steps *)


Lemma pm_be_step_spec (conid qty : Z) (entry r : Q) (allow : bool) (b : Broker) (s : St) :
  exists new,
    grows s (snd (pm_be_step conid qty entry r allow b s)) new /\
    Forall (step_order b conid ["STP"]) new /\ (length new <= 1)%nat /\
    (new <> [] -> Qle_bool 0.5 r = true /\
                  has_working_breakeven_stop (s_trades s) conid = false).
Proof.
  unfold pm_be_step, bind, trades, ret, inc, modify. cbn.
  destruct (Qle_bool 0.5 r && negb (has_working_breakeven_stop (s_trades s) conid)) eqn:G.
  - apply andb_true_iff in G as [G1 G2]. apply negb_true_iff in G2.
    unfold place_breakeven_stop. destruct allow; cbn [negb].
    + rewrite place_and_track_eq. destruct (b_place_ok b); cbn.
      * eexists. split; [split; cbn; reflexivity|].
        split; [repeat constructor; cbn; set_solver|]. split; [cbn; lia|]. done.
      * exists []. split; [split; cbn; by rewrite app_nil_r|]. split; [constructor|]. split; [cbn; lia|done].
    + exists []. split; [split; cbn; by rewrite app_nil_r|]. split; [constructor|]. split; [cbn; lia|done].
  - exists []. split; [apply grows_nil|]. split; [constructor|]. split; [cbn; lia|done].
Qed.

Lemma pm_tp1_step_spec (conid qty : Z) (r : Q) (allow : bool) (b : Broker) (s : St) :
  exists new,
    grows s (snd (pm_tp1_step conid qty r allow b s)) new /\
    Forall (step_order b conid ["MKT"; "LMT"]) new /\ (length new <= 1)%nat /\
    (new <> [] -> Qle_bool 1 r = true /\ (2 <= qty)%Z /\
                  has_working_scaleout_sell (s_trades s) conid = false).
Proof.
  unfold pm_tp1_step, bind, trades, ret, inc, modify. cbn.
  destruct (Qle_bool 1 r && (2 <=? qty)%Z && negb (has_working_scaleout_sell (s_trades s) conid))
    eqn:G.
  - apply andb_true_iff in G as [G1 G3]. apply andb_true_iff in G1 as [G1 G2].
    apply negb_true_iff in G3. apply Z.leb_le in G2.
    unfold place_sell_scaleout_1, bind, is_rth_now, get_mark_price_snapshot, ret, inc, modify.
    destruct allow; cbn [negb].
    + destruct (b_rth b); cbn.
      * rewrite place_and_track_eq. destruct (b_place_ok b); cbn.
        -- eexists. split; [split; cbn; reflexivity|].
           split; [repeat constructor; cbn; set_solver|]. split; [cbn; lia|]. done.
        -- exists []. split; [split; cbn; by rewrite app_nil_r|].
           split; [constructor|]. split; [cbn; lia|done].
      * destruct (b_quote b conid) as [qt|]; cbn.
        -- destruct (mark_of_quote qt) as [px|]; cbn.
           ++ destruct (Qle_bool px 0); cbn.
              ** exists []. split; [split; cbn; by rewrite app_nil_r|].
                 split; [constructor|]. split; [cbn; lia|done].
              ** rewrite place_and_track_eq. destruct (b_place_ok b); cbn.
                 --- eexists. split; [split; cbn; reflexivity|].
                     split; [repeat constructor; cbn; set_solver|]. split; [cbn; lia|]. done.
                 --- exists []. split; [split; cbn; by rewrite app_nil_r|].
                     split; [constructor|]. split; [cbn; lia|done].
           ++ exists []. split; [split; cbn; by rewrite app_nil_r|].
              split; [constructor|]. split; [cbn; lia|done].
        -- exists []. split; [split; cbn; by rewrite app_nil_r|].
           split; [constructor|]. split; [cbn; lia|done].
    + exists []. split; [split; cbn; by rewrite app_nil_r|].
      split; [constructor|]. split; [cbn; lia|done].
  - exists []. split; [apply grows_nil|]. split; [constructor|]. split; [cbn; lia|done].
Qed.

Lemma pm_trail_step_spec (e : Engine) (conid qty : Z) (allow : bool) (b : Broker) (s : St) :
  exists new,
    grows s (snd (pm_trail_step e conid qty allow b s)) new /\
    Forall (step_order b conid ["TRAIL"]) new /\ (length new <= 1)%nat /\
    (new <> [] -> has_working_trailing_sell (s_trades s) conid = false).
Proof.
  unfold pm_trail_step, bind, trades, ret, inc, modify. cbn.
  destruct (has_working_trailing_sell (s_trades s) conid) eqn:G; cbn.
  - exists []. split; [apply grows_nil|]. split; [constructor|]. split; [cbn; lia|done].
  - unfold place_trailing_stop. destruct allow; cbn [negb].
    + rewrite place_and_track_eq. destruct (b_place_ok b); cbn.
      * eexists. split; [split; cbn; reflexivity|].
        split; [repeat constructor; cbn; set_solver|]. split; [cbn; lia|]. done.
      * exists []. split; [split; cbn; by rewrite app_nil_r|].
        split; [constructor|]. split; [cbn; lia|done].
    + exists []. split; [split; cbn; by rewrite app_nil_r|].
      split; [constructor|]. split; [cbn; lia|done].
Qed.

(* ------------------------------------------------------------------ *)
(** ** Position management keeps at most one order of each kind *)

Lemma count_kind_app (p : Trade -> bool) (l1 l2 : list Trade) :
  count_kind p (l1 ++ l2) = (count_kind p l1 + count_kind p l2)%nat.
Proof. unfold count_kind. by rewrite List.filter_app, length_app. Qed.

Lemma count_kind_le_length (p : Trade -> bool) (l : list Trade) :
  (count_kind p l <= length l)%nat.
Proof.
  unfold count_kind. induction l as [|t l IH]; cbn; [lia|].
  destruct (p t); cbn; lia.
Qed.

Lemma kind_has_spec (k : kind) (ts : list Trade) (c : Z) :
  kind_has k ts c = existsb (fun t => working_status (t_status t) && kind_pred k c t) ts.
Proof.
  destruct k; cbn [kind_has kind_pred].
  - apply has_working_breakeven_stop_kind.
  - apply has_working_scaleout_sell_kind.
  - apply has_working_trailing_sell_kind.
Qed.

Lemma count_kind_working_zero (p : Trade -> bool) (l : list Trade) :
  Forall (fun t => working_status (t_status t) = true) l ->
  existsb (fun t => working_status (t_status t) && p t) l = false ->
  count_kind p l = 0%nat.
Proof.
  unfold count_kind. induction l as [|t l IH]; intros Hw He; [reflexivity|].
  inversion Hw as [|? ? Ht Hl]; subst. cbn in He. rewrite Ht in He. cbn in He.
  apply orb_false_iff in He as [Hp He]. cbn. rewrite Hp. by apply IH.
Qed.

Lemma kind_inv_refl (k : kind) (c : Z) (s : St) : kind_inv k c s s.
Proof.
  exists []. split; [apply grows_nil|]. split; [constructor|]. cbn. split; [lia|done].
Qed.

Lemma kind_inv_frame (k : kind) (c : Z) (s s' : St) :
  s_trades s' = s_trades s -> s_placed s' = s_placed s -> kind_inv k c s s'.
Proof.
  intros Ht Hp. exists []. split; [split; by rewrite app_nil_r|].
  split; [constructor|]. cbn. split; [lia|done].
Qed.

Lemma kind_inv_trans (k : kind) (c : Z) (s0 s1 s2 : St) :
  kind_inv k c s0 s1 -> kind_inv k c s1 s2 -> kind_inv k c s0 s2.
Proof.
  intros (n1 & G1 & W1 & C1 & H1) (n2 & G2 & W2 & C2 & H2).
  exists (n1 ++ n2). split; [eapply grows_trans; eauto|].
  split; [by apply Forall_app|]. rewrite count_kind_app.
  destruct (decide (count_kind (kind_pred k c) n2 = 0%nat)) as [Z2|Z2].
  - rewrite Z2, Nat.add_0_r. split; [exact C1|exact H1].
  - specialize (H2 Z2). destruct G1 as [_ T1]. rewrite T1, kind_has_spec, existsb_app in H2.
    apply orb_false_iff in H2 as [Hs0 Hn1].
    rewrite (count_kind_working_zero _ n1 W1 Hn1). cbn.
    split; [exact C2|]. intros _. by rewrite kind_has_spec.
Qed.

Section Keeps.
Variables (k : kind) (c : Z) (b : Broker).

Lemma keeps_ret {A} (a : A) : keeps k c b (ret a).
Proof. intros s. apply kind_inv_refl. Qed.

Lemma keeps_frame {A} (m : M A) :
  (forall s, s_trades (snd (m b s)) = s_trades s /\ s_placed (snd (m b s)) = s_placed s) ->
  keeps k c b m.
Proof. intros H s. destruct (H s). by apply kind_inv_frame. Qed.

Lemma keeps_inc (key : string) : keeps k c b (inc key).
Proof. apply keeps_frame. intros s. split; reflexivity. Qed.

Lemma keeps_bind {A B} (m : M A) (f : A -> M B) :
  keeps k c b m -> (forall a, keeps k c b (f a)) -> keeps k c b (bind m f).
Proof.
  intros Hm Hf s. unfold bind. specialize (Hm s).
  destruct (m b s) as [[a|err] s1]; cbn in *; [|exact Hm].
  eapply kind_inv_trans; [exact Hm|apply Hf].
Qed.

Lemma keeps_try_except {A} (m : M A) (h : string -> M A) :
  keeps k c b m -> (forall err, keeps k c b (h err)) -> keeps k c b (try_except m h).
Proof.
  intros Hm Hh s. unfold try_except. specialize (Hm s).
  destruct (m b s) as [[a|err] s1]; cbn in *; [exact Hm|].
  eapply kind_inv_trans; [exact Hm|apply Hh].
Qed.

Lemma keeps_for_each {A} (f : A -> M unit) (xs : list A) :
  (forall x, keeps k c b (f x)) -> keeps k c b (for_each f xs).
Proof.
  intros Hf. induction xs as [|x xs IH]; cbn [for_each]; [apply keeps_ret|].
  apply keeps_bind; [apply Hf|intros _; exact IH].
Qed.

Lemma keeps_mark (conid : Z) : keeps k c b (get_mark_price_snapshot conid).
Proof.
  apply keeps_frame. intros s. unfold get_mark_price_snapshot.
  destruct (b_quote b conid); split; reflexivity.
Qed.

Lemma keeps_get_positions : keeps k c b get_positions.
Proof. apply keeps_frame. intros s. split; reflexivity. Qed.

End Keeps.

(** A step that adds at most one working order, of kind [k0] only, and
    only while its classifier finds none, keeps [kind_inv]. *)
Lemma keeps_step (k0 : kind) (tys : list string) {A} (m : M A) (b : Broker) (conid : Z) :
  working_status (b_status b) = true ->
  (forall k c t, step_order b conid tys t -> kind_pred k c t = true -> k = k0 /\ c = conid) ->
  (forall s, exists new, grows s (snd (m b s)) new /\ Forall (step_order b conid tys) new /\
     (length new <= 1)%nat /\ (new <> [] -> kind_has k0 (s_trades s) conid = false)) ->
  forall k c, keeps k c b m.
Proof.
  intros Hw Hmatch Hspec k c s. destruct (Hspec s) as (new & G & F & L & H).
  exists new. split; [exact G|]. split.
  { eapply Forall_impl; [exact F|]. intros t (Hs & _). by rewrite Hs. }
  split; [pose proof (count_kind_le_length (kind_pred k c) new); lia|].
  intros Hn. destruct new as [|t [|t' rest]]; cbn in L; [done| |lia].
  unfold count_kind in Hn. cbn in Hn. destruct (kind_pred k c t) eqn:Hk; [|done].
  inversion F as [|? ? Ht _]; subst.
  destruct (Hmatch k c t Ht Hk) as [-> ->]. by apply H.
Qed.

Ltac step_match :=
  intros k c t (_ & Hc & Ha & Hty) Hk;
  repeat (apply elem_of_cons in Hty as [Hty|Hty]);
  try (apply elem_of_nil in Hty; contradiction);
  destruct k; cbn [kind_pred] in Hk; unfold be_kind, so_kind, tr_kind in Hk;
  rewrite ?Hc, ?Ha, ?Hty in Hk; cbn in Hk; rewrite ?andb_false_r, ?andb_true_r in Hk;
  try discriminate; apply bool_decide_eq_true in Hk; subst; split; reflexivity.

Lemma keeps_pm_be_step (b : Broker) (conid qty : Z) (entry r : Q) (allow : bool) :
  working_status (b_status b) = true ->
  forall k c, keeps k c b (pm_be_step conid qty entry r allow).
Proof.
  intros Hw. apply (keeps_step KBe ["STP"] _ b conid Hw); [step_match|].
  intros s. destruct (pm_be_step_spec conid qty entry r allow b s) as (new & G & F & L & H).
  exists new. split; [exact G|]. split; [exact F|]. split; [exact L|].
  intros Hn. apply H, Hn.
Qed.

Lemma keeps_pm_tp1_step (b : Broker) (conid qty : Z) (r : Q) (allow : bool) :
  working_status (b_status b) = true ->
  forall k c, keeps k c b (pm_tp1_step conid qty r allow).
Proof.
  intros Hw. apply (keeps_step KSo ["MKT"; "LMT"] _ b conid Hw); [step_match|].
  intros s. destruct (pm_tp1_step_spec conid qty r allow b s) as (new & G & F & L & H).
  exists new. split; [exact G|]. split; [exact F|]. split; [exact L|].
  intros Hn. apply H, Hn.
Qed.

Lemma keeps_pm_trail_step (e : Engine) (b : Broker) (conid qty : Z) (allow : bool) :
  working_status (b_status b) = true ->
  forall k c, keeps k c b (pm_trail_step e conid qty allow).
Proof.
  intros Hw. apply (keeps_step KTr ["TRAIL"] _ b conid Hw); [step_match|].
  intros s. destruct (pm_trail_step_spec e conid qty allow b s) as (new & G & F & L & H).
  exists new. split; [exact G|]. split; [exact F|]. split; [exact L|exact H].
Qed.

Lemma keeps_pm_position (e : Engine) (b : Broker) (allow : bool) (p : Position) :
  working_status (b_status b) = true ->
  forall k c, keeps k c b (pm_position e allow p).
Proof.
  intros Hw k c. unfold pm_position. cbv zeta.
  destruct (py_int (p_position p) <=? 0)%Z; [apply keeps_ret|].
  destruct (entry_from_position p) as [entry|]; [|apply keeps_ret].
  apply keeps_bind; [apply keeps_mark|]. intros [m|]; [|apply keeps_ret].
  destruct (Qle_bool m 0); [apply keeps_ret|].
  apply keeps_bind; [by apply keeps_pm_be_step|]. intros _.
  apply keeps_bind; [by apply keeps_pm_tp1_step|]. intros _.
  by apply keeps_pm_trail_step.
Qed.

Lemma keeps_position_management (e : Engine) (b : Broker) (allow : bool) :
  working_status (b_status b) = true ->
  forall k c, keeps k c b (position_management e allow).
Proof.
  intros Hw k c. unfold position_management.
  apply keeps_bind; [apply keeps_get_positions|]. intros ps.
  apply keeps_for_each. intros p.
  apply keeps_try_except; [by apply keeps_pm_position|]. intros _. apply keeps_inc.
Qed.

Lemma count_kind_working_exists (p : Trade -> bool) (l : list Trade) :
  Forall (fun t => working_status (t_status t) = true) l ->
  count_kind p l <> 0%nat ->
  existsb (fun t => working_status (t_status t) && p t) l = true.
Proof.
  intros Hw Hc. destruct (existsb _ l) eqn:E; [reflexivity|].
  exfalso. apply Hc. by apply count_kind_working_zero.
Qed.

Lemma grows_det (s s' : St) (n1 n2 : list Trade) :
  grows s s' n1 -> grows s s' n2 -> n1 = n2.
Proof. intros [P1 _] [P2 _]. rewrite P1 in P2. by apply app_inv_head in P2. Qed.

(** C1: two successive position-management passes over an unchanged
    working-order snapshot (the trades the first pass leaves are the ones
    the second pass sees, and the orders they submit stay working) submit,
    for every instrument [c] and each kind [k] (breakeven stop: working
    SELL STP/STOP; scale-out: working SELL MKT/LMT; trailing stop: working
    SELL TRAIL), at most one such order in total; an order of that kind
    submitted by the first pass makes its classifier fire, and the second
    pass submits none while the classifier fires.  The passes may see
    different marks, positions and permissions. *)
Theorem position_management_idempotent (e : Engine) (a1 a2 : bool) (b1 b2 : Broker)
  (s0 : St) (k : kind) (c : Z) :
  working_status (b_status b1) = true ->
  working_status (b_status b2) = true ->
  let s1 := snd (position_management e a1 b1 s0) in
  let s2 := snd (position_management e a2 b2 s1) in
  exists new1 new2,
    grows s0 s1 new1 /\ grows s1 s2 new2 /\
    (count_kind (kind_pred k c) (new1 ++ new2) <= 1)%nat /\
    (count_kind (kind_pred k c) new1 <> 0%nat -> kind_has k (s_trades s1) c = true) /\
    (kind_has k (s_trades s1) c = true -> count_kind (kind_pred k c) new2 = 0%nat).
Proof.
  intros Hw1 Hw2 s1 s2.
  pose proof (keeps_position_management e b1 a1 Hw1 k c s0) as I1.
  pose proof (keeps_position_management e b2 a2 Hw2 k c s1) as I2.
  fold s1 in I1. fold s2 in I2.
  pose proof (kind_inv_trans k c s0 s1 s2 I1 I2) as (n & G & _ & C & _).
  destruct I1 as (n1 & G1 & W1 & _ & _). destruct I2 as (n2 & G2 & _ & _ & H2).
  rewrite (grows_det _ _ _ _ G (grows_trans _ _ _ _ _ G1 G2)) in C.
  exists n1, n2. split; [exact G1|]. split; [exact G2|]. split; [exact C|]. split.
  - intros Hn. destruct G1 as [_ T1]. rewrite T1, kind_has_spec, existsb_app.
    rewrite (count_kind_working_exists _ _ W1 Hn). apply orb_true_r.
  - intros Hh. destruct (decide (count_kind (kind_pred k c) n2 = 0%nat)) as [|Hn]; [done|].
    rewrite (H2 Hn) in Hh. discriminate.
Qed.

Lemma position_management_idempotent_witness :
  working_status (b_status (brk_pm [])) = true /\
  let s1 := snd (position_management default_engine true (brk_pm []) st_empty) in
  let s2 := snd (position_management default_engine true (brk_pm []) s1) in
  exists new1 new2,
    grows st_empty s1 new1 /\ grows s1 s2 new2 /\
    (count_kind (kind_pred KSo 7) (new1 ++ new2) <= 1)%nat /\
    (count_kind (kind_pred KSo 7) new1 <> 0%nat -> kind_has KSo (s_trades s1) 7 = true) /\
    (kind_has KSo (s_trades s1) 7 = true -> count_kind (kind_pred KSo 7) new2 = 0%nat).
Proof.
  split; [reflexivity|].
  apply (position_management_idempotent default_engine true true (brk_pm []) (brk_pm [])
           st_empty KSo 7); reflexivity.
Defined.

(* ------------------------------------------------------------------ *)
(** ** Scale-out guard *)

Lemma bind_snd {A B} (m : M A) (f : A -> M B) (b : Broker) (s : St) :
  snd (bind m f b s) =
  match fst (m b s) with
  | Ok a => snd (f a b (snd (m b s)))
  | Raise _ => snd (m b s)
  end.
Proof. unfold bind. by destruct (m b s) as [[a|err] s1]. Qed.

Lemma step_order_scaleout (b : Broker) (conid : Z) (tys : list string) (t : Trade) :
  step_order b conid tys t -> is_scaleout_order t = true ->
  orderType (t_order t) = "MKT" \/ orderType (t_order t) = "LMT".
Proof.
  intros (_ & _ & _ & _) Hs. unfold is_scaleout_order in Hs.
  apply andb_true_iff in Hs as [_ Hs]. apply orb_true_iff in Hs as [H|H];
    apply String.eqb_eq in H; auto.
Qed.

Lemma no_scaleout_steps (b : Broker) (conid : Z) (ty : string) (l : list Trade) :
  ty <> "MKT" -> ty <> "LMT" -> Forall (step_order b conid [ty]) l ->
  ~ Exists (fun t => is_scaleout_order t = true) l.
Proof.
  intros H1 H2 HF HE. apply Exists_exists in HE as (t & Hin & Hs).
  rewrite Forall_forall in HF. pose proof (HF t Hin) as Ht.
  destruct (step_order_scaleout _ _ _ _ Ht Hs) as [E|E];
    destruct Ht as (_ & _ & _ & Hty); apply list_elem_of_singleton in Hty; congruence.
Qed.

Lemma has_working_scaleout_sell_app (ts n : list Trade) (c : Z) :
  has_working_scaleout_sell (ts ++ n) c = false -> has_working_scaleout_sell ts c = false.
Proof.
  rewrite !has_working_scaleout_sell_kind, existsb_app. by intros [? _]%orb_false_iff.
Qed.

(** C7: a position-management pass over one position submits a scale-out
    sell (a SELL MKT/LMT order, of any instrument) only when [int(position)]
    is at least 2, no working scale-out sell exists for the instrument, and
    the mark [m] of the instrument gives a return of at least 1.0% over the
    entry price; in particular a position whose [int(position)] is at most
    1 (quantity 1) never receives one, whatever its return. *)
Theorem pm_position_scaleout_guard (e : Engine) (allow : bool) (p : Position)
  (b : Broker) (s : St) :
  exists new,
    grows s (snd (pm_position e allow p b s)) new /\
    (Exists (fun t => is_scaleout_order t = true) new ->
       (2 <= py_int (p_position p))%Z /\
       has_working_scaleout_sell (s_trades s) (p_conid p) = false /\
       exists entry m, entry_from_position p = Some entry /\
         get_mark_price_snapshot (p_conid p) b s = (Ok (Some m), s) /\
         Qle_bool 1 ((m - entry) / entry * 100) = true) /\
    ((py_int (p_position p) <= 1)%Z -> Forall (fun t => is_scaleout_order t = false) new).
Proof.
  assert (Hnone : forall s', s' = s -> exists new, grows s s' new /\
            (Exists (fun t => is_scaleout_order t = true) new -> False) /\
            Forall (fun t => is_scaleout_order t = false) new).
  { intros s' ->. exists []. split; [apply grows_nil|]. split; [by intros ?%Exists_nil|constructor]. }
  assert (Hmain : exists new,
    grows s (snd (pm_position e allow p b s)) new /\
    (Exists (fun t => is_scaleout_order t = true) new ->
       (2 <= py_int (p_position p))%Z /\
       has_working_scaleout_sell (s_trades s) (p_conid p) = false /\
       exists entry m, entry_from_position p = Some entry /\
         get_mark_price_snapshot (p_conid p) b s = (Ok (Some m), s) /\
         Qle_bool 1 ((m - entry) / entry * 100) = true)).
  { unfold pm_position. cbv zeta.
    destruct (py_int (p_position p) <=? 0)%Z.
    { destruct (Hnone _ eq_refl) as (n & G & X & _). exists n. split; [exact G|intros; exfalso; auto]. }
    destruct (entry_from_position p) as [entry|] eqn:He.
    2: { destruct (Hnone _ eq_refl) as (n & G & X & _). exists n. split; [exact G|intros; exfalso; auto]. }
    rewrite bind_snd. destruct (get_mark_price_snapshot (p_conid p) b s) as [[mk|err] s1] eqn:Hm;
      assert (s1 = s) as -> by (unfold get_mark_price_snapshot in Hm;
                               destruct (b_quote b (p_conid p)); congruence); cbn [fst snd].
    2: { destruct (Hnone _ eq_refl) as (n & G & X & _). exists n. split; [exact G|intros; exfalso; auto]. }
    destruct mk as [m|].
    2: { destruct (Hnone _ eq_refl) as (n & G & X & _). exists n. split; [exact G|intros; exfalso; auto]. }
    destruct (Qle_bool m 0).
    { destruct (Hnone _ eq_refl) as (n & G & X & _). exists n. split; [exact G|intros; exfalso; auto]. }
    set (r := (m - entry) / entry * 100).
    destruct (pm_be_step_spec (p_conid p) (py_int (p_position p)) entry r allow b s)
      as (n1 & G1 & F1 & _ & _).
    assert (X1 : ~ Exists (fun t => is_scaleout_order t = true) n1)
      by (apply (no_scaleout_steps b (p_conid p) "STP"); [done|done|exact F1]).
    rewrite bind_snd. destruct (fst (pm_be_step _ _ _ _ _ b s)).
    2: { exists n1. split; [exact G1|intros; exfalso; auto]. }
    set (s2 := snd (pm_be_step _ _ _ _ _ b s)) in *.
    destruct (pm_tp1_step_spec (p_conid p) (py_int (p_position p)) r allow b s2)
      as (n2 & G2 & _ & _ & H2).
    assert (Hguard : n2 <> [] ->
       (2 <= py_int (p_position p))%Z /\
       has_working_scaleout_sell (s_trades s) (p_conid p) = false /\
       exists entry0 m0, Some entry = Some entry0 /\
         (Ok (Some m) : res (option Q), s) = (Ok (Some m0), s) /\
         Qle_bool 1 ((m0 - entry0) / entry0 * 100) = true).
    { intros Hn. destruct (H2 Hn) as (Hr & Hq & Hso). split; [exact Hq|]. split.
      - destruct G1 as [_ T1]. rewrite T1 in Hso. by apply has_working_scaleout_sell_app in Hso.
      - exists entry, m. done. }
    rewrite bind_snd. destruct (fst (pm_tp1_step _ _ _ _ b s2)).
    2: { exists (n1 ++ n2). split; [eapply grows_trans; eauto|].
         intros [HX|HX]%Exists_app; [exfalso; auto|].
         apply Hguard. intros ->. by apply Exists_nil in HX. }
    set (s3 := snd (pm_tp1_step _ _ _ _ b s2)) in *.
    destruct (pm_trail_step_spec e (p_conid p) (py_int (p_position p)) allow b s3)
      as (n3 & G3 & F3 & _ & _).
    assert (X3 : ~ Exists (fun t => is_scaleout_order t = true) n3)
      by (apply (no_scaleout_steps b (p_conid p) "TRAIL"); [done|done|exact F3]).
    exists (n1 ++ n2 ++ n3). split; [eapply grows_trans; [exact G1|eapply grows_trans; eauto]|].
    intros [HX|[HX|HX]%Exists_app]%Exists_app; [exfalso; auto| |exfalso; auto].
    apply Hguard. intros ->. by apply Exists_nil in HX. }
  destruct Hmain as (n & G & H). exists n. split; [exact G|]. split; [exact H|].
  intros Hq. apply Forall_forall. intros t Hin.
  destruct (is_scaleout_order t) eqn:Ht; [|reflexivity].
  assert (Exists (fun t => is_scaleout_order t = true) n) as HX
    by (apply Exists_exists; eauto).
  destruct (H HX) as [Hq2 _]. lia.
Qed.

(* ------------------------------------------------------------------ *)
(** ** Counters *)

Lemma stat_inc (key key' : string) (b : Broker) (s : St) :
  stat key (s_stats (snd (inc key' b s))) =
  (stat key (s_stats s) + if key' =s? key then 1 else 0)%Z.
Proof.
  unfold inc, modify, stat. cbn.
  destruct (String.eqb_spec key' key) as [->|Hne].
  - by rewrite lookup_insert_eq.
  - rewrite lookup_insert_ne by exact Hne. cbn. lia.
Qed.

Lemma trades_inc (key : string) (b : Broker) (s : St) :
  s_trades (snd (inc key b s)) = s_trades s /\ s_placed (snd (inc key b s)) = s_placed s.
Proof. split; reflexivity. Qed.

Lemma pm_be_step_noexit (conid qty : Z) (entry r : Q) (b : Broker) (s : St) :
  pm_be_step conid qty entry r false b s =
  (Ok tt, if Qle_bool 0.5 r && negb (has_working_breakeven_stop (s_trades s) conid)
          then snd (inc "be" b s) else s).
Proof.
  unfold pm_be_step, bind, trades. cbn.
  by destruct (Qle_bool 0.5 r && _).
Qed.

Lemma pm_tp1_step_noexit (conid qty : Z) (r : Q) (b : Broker) (s : St) :
  pm_tp1_step conid qty r false b s =
  (Ok tt, if Qle_bool 1 r && (2 <=? qty)%Z && negb (has_working_scaleout_sell (s_trades s) conid)
          then snd (inc "tp1" b s) else s).
Proof.
  unfold pm_tp1_step, bind, trades. cbn.
  by destruct (Qle_bool 1 r && _ && _).
Qed.

Lemma pm_trail_step_noexit (e : Engine) (conid qty : Z) (b : Broker) (s : St) :
  pm_trail_step e conid qty false b s =
  (Ok tt, if negb (has_working_trailing_sell (s_trades s) conid)
          then snd (inc "trail_ensure" b s) else s).
Proof.
  unfold pm_trail_step, bind, trades. cbn.
  by destruct (negb _).
Qed.

Section EntryCounter.
Variable b : Broker.

Lemma entry_inv_refl (s : St) : entry_inv s s.
Proof. exists []. split; [apply grows_nil|]. cbn. lia. Qed.

Lemma entry_inv_trans (s0 s1 s2 : St) : entry_inv s0 s1 -> entry_inv s1 s2 -> entry_inv s0 s2.
Proof.
  intros (n1 & G1 & E1) (n2 & G2 & E2). exists (n1 ++ n2).
  split; [eapply grows_trans; eauto|]. rewrite count_kind_app. lia.
Qed.

Lemma ekeeps_frame {A} (m : M A) :
  (forall s, s_trades (snd (m b s)) = s_trades s /\ s_placed (snd (m b s)) = s_placed s /\
     stat "entry" (s_stats (snd (m b s))) = stat "entry" (s_stats s)) ->
  ekeeps b m.
Proof.
  intros H s. destruct (H s) as (T & P & E). exists [].
  split; [split; by rewrite app_nil_r|]. cbn. lia.
Qed.

Lemma ekeeps_ret {A} (a : A) : ekeeps b (ret a).
Proof. intros s. apply entry_inv_refl. Qed.

Lemma ekeeps_inc (key : string) : key <> "entry" -> ekeeps b (inc key).
Proof.
  intros Hk. apply ekeeps_frame. intros s. split; [reflexivity|]. split; [reflexivity|].
  rewrite stat_inc. destruct (String.eqb_spec key "entry"); [done|lia].
Qed.

Lemma ekeeps_bind {A B} (m : M A) (f : A -> M B) :
  ekeeps b m -> (forall a, ekeeps b (f a)) -> ekeeps b (bind m f).
Proof.
  intros Hm Hf s. unfold bind. specialize (Hm s).
  destruct (m b s) as [[a|err] s1]; cbn in *; [|exact Hm].
  eapply entry_inv_trans; [exact Hm|apply Hf].
Qed.

Lemma ekeeps_pure {A} (m : M A) : (forall s, snd (m b s) = s) -> ekeeps b m.
Proof. intros H. apply ekeeps_frame. intros s. by rewrite H. Qed.

Lemma ekeeps_load_latest_signal (symbol : string) : ekeeps b (load_latest_signal symbol).
Proof.
  unfold load_latest_signal. apply ekeeps_bind; [apply ekeeps_pure; reflexivity|].
  intros b'. destruct (b_db b'); [apply ekeeps_ret|].
  apply ekeeps_bind; [by apply ekeeps_inc|intros _; apply ekeeps_ret].
Qed.

Lemma ekeeps_place_trailing_stop (cfg : RiskConfig) (conid qty : Z) (allow : bool) :
  ekeeps b (place_trailing_stop cfg conid qty allow).
Proof.
  intros s. unfold place_trailing_stop. destruct allow; cbn [negb]; [|apply entry_inv_refl].
  rewrite place_and_track_eq. destruct (b_place_ok b); cbn [snd]; [|apply entry_inv_refl].
  eexists. split; [apply grows_placed_state|]. cbn. lia.
Qed.

Lemma place_buy_entry_spec (conid qty : Z) (allow : bool) (s : St) :
  match place_buy_entry conid qty allow b s with
  | (Ok (Some t), s') => grows s s' [t] /\ is_buy_order t = true /\ s_stats s' = s_stats s
  | (_, s') => grows s s' [] /\ stat "entry" (s_stats s') = stat "entry" (s_stats s)
  end.
Proof.
  unfold place_buy_entry. destruct allow; cbn [negb]; [|split; [apply grows_nil|reflexivity]].
  unfold bind at 1, is_rth_now. cbn -[place_and_track get_mark_price_snapshot inc].
  destruct (b_rth b).
  - rewrite place_and_track_eq. destruct (b_place_ok b).
    + split; [apply grows_placed_state|]. split; reflexivity.
    + split; [apply grows_nil|reflexivity].
  - unfold bind at 1, get_mark_price_snapshot. destruct (b_quote b conid) as [qt|].
    2: { split; [apply grows_nil|reflexivity]. }
    cbn -[place_and_track inc]. destruct (mark_of_quote qt) as [px|].
    2: { unfold bind. cbn. split; [split; by rewrite app_nil_r|]. unfold stat; by rewrite lookup_insert_ne. }
    destruct (Qle_bool px 0).
    { unfold bind. cbn. split; [split; by rewrite app_nil_r|]. unfold stat; by rewrite lookup_insert_ne. }
    rewrite place_and_track_eq. destruct (b_place_ok b).
    + split; [apply grows_placed_state|]. split; reflexivity.
    + split; [apply grows_nil|reflexivity].
Qed.

Lemma ekeeps_buy (conid qty : Z) (allow : bool) (f : M bool) :
  ekeeps b f ->
  ekeeps b (tr <- place_buy_entry conid qty allow ;;
            match tr with None => ret true | Some _ => inc "entry" ;; f end).
Proof.
  intros Hf s. pose proof (place_buy_entry_spec conid qty allow s) as H. unfold bind at 1.
  destruct (place_buy_entry conid qty allow b s) as [[[t|]|err] s1].
  - destruct H as (G & Hb & St). cbv beta iota. rewrite bind_snd.
    replace (fst (inc "entry" b s1)) with (Ok tt : res unit) by reflexivity.
    cbv beta iota. eapply entry_inv_trans; [|apply Hf].
    exists [t]. destruct (trades_inc "entry" b s1) as [T P]. destruct G as [GP GT].
    split; [split; [by rewrite P|by rewrite T]|].
    rewrite stat_inc, St. unfold count_kind. cbn. rewrite Hb. cbn. lia.
  - destruct H as (G & E). exists []. split; [exact G|]. cbn. lia.
  - destruct H as (G & E). exists []. split; [exact G|]. cbn. lia.
Qed.

End EntryCounter.

Lemma ekeeps_entry_section (e : Engine) (b : Broker) (symbol : string)
  (allow_entries allow_exits : bool) (mtr : Q) :
  ekeeps b (entry_section e symbol allow_entries allow_exits mtr).
Proof.
  unfold entry_section. cbv zeta.
  apply ekeeps_bind; [apply ekeeps_load_latest_signal|]. intros [row|]; [|apply ekeeps_ret].
  apply ekeeps_bind; [by apply ekeeps_inc|]. intros _.
  destruct (safe_int (sig_con_id row)) as [conid|].
  2: { apply ekeeps_bind; [by apply ekeeps_inc|intros _; apply ekeeps_ret]. }
  apply ekeeps_bind; [apply ekeeps_pure; reflexivity|]. intros al.
  destruct al; [apply ekeeps_ret|]. destruct (negb allow_entries); [apply ekeeps_ret|].
  apply ekeeps_bind.
  { apply ekeeps_pure. intros s. unfold get_mark_price_snapshot. by destruct (b_quote b conid). }
  intros [p|]; [|apply ekeeps_bind; [by apply ekeeps_inc|intros _; apply ekeeps_ret]].
  destruct (Qle_bool p 0); [apply ekeeps_bind; [by apply ekeeps_inc|intros _; apply ekeeps_ret]|].
  destruct (preflight_denies _ mtr p); [apply ekeeps_ret|].
  apply ekeeps_buy.
  apply ekeeps_bind; [apply ekeeps_pure; reflexivity|]. intros ts.
  apply ekeeps_bind; [|intros _; apply ekeeps_ret].
  destruct (negb _); [|apply ekeeps_ret].
  apply ekeeps_bind; [apply ekeeps_place_trailing_stop|intros _; apply ekeeps_ret].
Qed.

(** C10: with exits disallowed, a position-management pass over a
    position with [int(position) > 0], an entry price and a positive mark
    submits no order, yet increments ["be"], ["tp1"] and ["trail_ensure"]
    exactly when their triggers fire (return [r >= 0.5] and no working
    breakeven stop; [r >= 1.0], [int(position) >= 2] and no working
    scale-out sell; no working trailing stop), so these counters count
    triggers; while the ["entry"] counter of the entry part of [run] grows
    by exactly the number of buy orders it submitted. *)
Theorem pm_counters_count_triggers (e : Engine) (p : Position) (b : Broker) (s : St)
  (entry m : Q) :
  (0 < py_int (p_position p))%Z ->
  entry_from_position p = Some entry ->
  get_mark_price_snapshot (p_conid p) b s = (Ok (Some m), s) ->
  Qle_bool m 0 = false ->
  let r := (m - entry) / entry * 100 in
  let conid := p_conid p in
  let ts := s_trades s in
  let out := pm_position e false p b s in
  fst out = Ok tt /\ s_placed (snd out) = s_placed s /\ s_trades (snd out) = ts /\
  stat "be" (s_stats (snd out)) =
    (stat "be" (s_stats s) +
     if Qle_bool 0.5 r && negb (has_working_breakeven_stop ts conid) then 1 else 0)%Z /\
  stat "tp1" (s_stats (snd out)) =
    (stat "tp1" (s_stats s) +
     if Qle_bool 1 r && (2 <=? py_int (p_position p))%Z &&
        negb (has_working_scaleout_sell ts conid) then 1 else 0)%Z /\
  stat "trail_ensure" (s_stats (snd out)) =
    (stat "trail_ensure" (s_stats s) +
     if negb (has_working_trailing_sell ts conid) then 1 else 0)%Z /\
  (forall symbol allow_entries allow_exits mtr,
     entry_inv s (snd (entry_section e symbol allow_entries allow_exits mtr b s))).
Proof.
  intros Hq He Hm Hm0. cbv zeta.
  set (r := (m - entry) / entry * 100).
  set (g1 := Qle_bool 0.5 r && negb (has_working_breakeven_stop (s_trades s) (p_conid p))).
  set (g2 := Qle_bool 1 r && (2 <=? py_int (p_position p))%Z &&
             negb (has_working_scaleout_sell (s_trades s) (p_conid p))).
  set (g3 := negb (has_working_trailing_sell (s_trades s) (p_conid p))).
  assert (E : pm_position e false p b s =
    (Ok tt, let s1 := if g1 then snd (inc "be" b s) else s in
            let s2 := if g2 then snd (inc "tp1" b s1) else s1 in
            if g3 then snd (inc "trail_ensure" b s2) else s2)).
  { unfold pm_position. cbv zeta.
    replace (py_int (p_position p) <=? 0)%Z with false by (symmetry; apply Z.leb_gt; lia).
    rewrite He. unfold bind at 1. rewrite Hm. cbv beta iota. rewrite Hm0.
    unfold bind. rewrite pm_be_step_noexit. fold r. fold g1.
    assert (T1 : s_trades (if g1 then snd (inc "be" b s) else s) = s_trades s) by (by destruct g1).
    rewrite pm_tp1_step_noexit, T1. fold g2.
    assert (T2 : s_trades (if g2 then snd (inc "tp1" b (if g1 then snd (inc "be" b s) else s))
                           else (if g1 then snd (inc "be" b s) else s)) = s_trades s)
      by (destruct g1, g2; reflexivity).
    rewrite pm_trail_step_noexit, T2. fold g3. reflexivity. }
  rewrite E. cbv zeta. cbn [fst snd].
  split; [reflexivity|]. split; [by destruct g1, g2, g3|]. split; [by destruct g1, g2, g3|].
  split; [|split; [|split]].
  - destruct g1, g2, g3; rewrite ?stat_inc; cbn [String.eqb Ascii.eqb Bool.eqb]; lia.
  - destruct g1, g2, g3; rewrite ?stat_inc; cbn [String.eqb Ascii.eqb Bool.eqb]; lia.
  - destruct g1, g2, g3; rewrite ?stat_inc; cbn [String.eqb Ascii.eqb Bool.eqb]; lia.
  - intros. apply ekeeps_entry_section.
Qed.

Lemma pm_counters_count_triggers_witness :
  let p := mkPosition 7 "STK" 2 (Some 100) in
  let out := pm_position default_engine false p (brk_pm []) st_empty in
  s_placed (snd out) = [] /\
  stat "be" (s_stats (snd out)) = 1%Z /\ stat "tp1" (s_stats (snd out)) = 1%Z /\
  stat "trail_ensure" (s_stats (snd out)) = 1%Z.
Proof.
  cbv zeta.
  destruct (pm_counters_count_triggers default_engine (mkPosition 7 "STK" 2 (Some 100))
              (brk_pm []) st_empty 100 102 eq_refl eq_refl eq_refl eq_refl)
    as (_ & HP & _ & HB & HT & HE & _).
  split; [exact HP|]. split; [rewrite HB; reflexivity|].
  split; [rewrite HT; reflexivity|rewrite HE; reflexivity].
Defined.

(* ------------------------------------------------------------------ *)
(** ** Summary lines and exceptions *)

Section Frame.
Variable b : Broker.





End Frame.






Lemma errs_safe_ret {A} (b : Broker) (a : A) : errs_safe b (ret a).
Proof. intros s. exists a. split; reflexivity. Qed.

Lemma errs_safe_bind {A B} (b : Broker) (m : M A) (k : A -> M B) :
  errs_safe b m -> (forall a, errs_safe b (k a)) -> errs_safe b (bind m k).
Proof.
  intros Hm Hk s. destruct (Hm s) as (a & Ha & Hs). unfold bind.
  destruct (m b s) as [r s1]. cbn in Ha, Hs. subst r.
  destruct (Hk a s1) as (c & Hc & Hs'). exists c. split; [exact Hc|]. by rewrite Hs'.
Qed.

Lemma errs_safe_inc (b : Broker) (k : string) : k <> "errs" -> errs_safe b (inc k).
Proof.
  intros Hk s. exists tt. split; [reflexivity|].
  unfold inc, modify, stat. cbn. by rewrite lookup_insert_ne.
Qed.

Lemma errs_safe_trades (b : Broker) : errs_safe b trades.
Proof. intros s. eexists. split; reflexivity. Qed.

Lemma errs_safe_is_rth (b : Broker) : errs_safe b is_rth_now.
Proof. intros s. eexists. split; reflexivity. Qed.

Lemma errs_safe_get_mark (b : Broker) (c : Z) (qt : Quote) :
  b_quote b c = Some qt -> errs_safe b (get_mark_price_snapshot c).
Proof. intros H s. unfold get_mark_price_snapshot. rewrite H. eexists. split; reflexivity. Qed.

Lemma errs_safe_place_and_track (b : Broker) (c : Z) (o : Order) :
  b_place_ok b = true -> errs_safe b (place_and_track c o).
Proof. intros H s. rewrite place_and_track_eq, H. eexists. split; reflexivity. Qed.

Ltac errs_safe_tac :=
  repeat first
    [ progress cbv beta zeta
    | apply errs_safe_place_and_track; assumption
    | apply errs_safe_bind; [|intros ?]
    | apply errs_safe_ret
    | apply errs_safe_trades
    | apply errs_safe_is_rth
    | apply errs_safe_inc; discriminate
    | eapply errs_safe_get_mark; eassumption
    | match goal with
      | |- errs_safe _ (if ?c then _ else _) => destruct c
      | |- errs_safe _ (match ?x with _ => _ end) => destruct x
      end ].

(** With the broker accepting orders, the management of one position
    returns normally and logs nothing unless its quote request fails. *)
Lemma pm_position_errs_safe (e : Engine) (allow : bool) (p : Position) (b : Broker) :
  b_place_ok b = true -> pm_quote_missing b p = false ->
  errs_safe b (pm_position e allow p).
Proof.
  intros Hp Hm. unfold pm_quote_missing in Hm. unfold pm_position. cbv zeta.
  destruct (py_int (p_position p) <=? 0)%Z eqn:Hq; [apply errs_safe_ret|].
  destruct (entry_from_position p) as [entry|] eqn:He; [|apply errs_safe_ret].
  assert (Hq' : (0 <? py_int (p_position p))%Z = true)
    by (apply Z.ltb_lt; apply Z.leb_gt in Hq; exact Hq).
  rewrite Hq' in Hm. cbn in Hm.
  destruct (b_quote b (p_conid p)) as [qt|] eqn:Hqt; [|discriminate].
  unfold pm_be_step, pm_tp1_step, pm_trail_step, place_breakeven_stop,
    place_sell_scaleout_1, place_trailing_stop.
  errs_safe_tac.
Qed.

(** A position whose quote request fails makes its management raise
    before any effect. *)
Lemma pm_position_quote_missing (e : Engine) (allow : bool) (p : Position) (b : Broker) (s : St) :
  pm_quote_missing b p = true -> pm_position e allow p b s = (Raise "reqMktData", s).
Proof.
  unfold pm_quote_missing. intros H. apply andb_true_iff in H as [H Hq].
  apply andb_true_iff in H as [Hp He].
  unfold pm_position. cbv zeta.
  replace (py_int (p_position p) <=? 0)%Z with false
    by (symmetry; apply Z.leb_gt; apply Z.ltb_lt; exact Hp).
  destruct (entry_from_position p); [|discriminate].
  unfold bind, get_mark_price_snapshot.
  destruct (b_quote b (p_conid p)); [discriminate|reflexivity].
Qed.

(** The management loop over [ps], with the broker accepting orders,
    returns normally and adds to ["errs"] one per position whose quote
    request fails. *)
Lemma pm_loop_errs (e : Engine) (allow : bool) (b : Broker) (ps : list Position) (s : St) :
  b_place_ok b = true ->
  fst (for_each (fun p => try_except (pm_position e allow p) (fun _ => log_error)) ps b s) = Ok tt /\
  stat "errs" (s_stats (snd (for_each (fun p => try_except (pm_position e allow p)
                                               (fun _ => log_error)) ps b s)))
  = (stat "errs" (s_stats s) + Z.of_nat (length (List.filter (pm_quote_missing b) ps)))%Z.
Proof.
  intros Hp. revert s. induction ps as [|p ps IH]; intros s.
  - cbn. split; [reflexivity|lia].
  - cbn [List.filter].
    set (f := fun p => try_except (pm_position e allow p) (fun _ => log_error)) in *.
    destruct (pm_quote_missing b p) eqn:Hm.
    + assert (E : for_each f (p :: ps) b s = for_each f ps b (snd (log_error b s))).
      { cbn [for_each]. unfold bind at 1. subst f. cbv beta. unfold try_except at 1.
        by rewrite (pm_position_quote_missing e allow p b s Hm). }
      rewrite E. destruct (IH (snd (log_error b s))) as [H1 H2].
      split; [exact H1|]. rewrite H2.
      change (stat "errs" (s_stats (snd (log_error b s))))
        with (stat "errs" (<["errs" := (stat "errs" (s_stats s) + 1)%Z]> (s_stats s))).
      unfold stat at 1. rewrite lookup_insert, decide_True by reflexivity. cbn [default length].
      rewrite Nat2Z.inj_succ. unfold id. lia.
    + destruct (pm_position_errs_safe e allow p b Hp Hm s) as (a & Ha & Hs).
      assert (E : for_each f (p :: ps) b s = for_each f ps b (snd (pm_position e allow p b s))).
      { cbn [for_each]. unfold bind at 1. subst f. cbv beta. unfold try_except at 1.
        destruct (pm_position e allow p b s) as [r s1]. cbn in Ha. by subst r. }
      rewrite E. destruct (IH (snd (pm_position e allow p b s))) as [H1 H2].
      split; [exact H1|]. by rewrite H2, Hs.
Qed.




(** C3 (where the code departs from the spec): a signal row whose
    [con_id] does not parse ([SIGNAL_SKIP_BAD_CONID]), and a preflight
    risk check that denies ([PREFLIGHT_SKIP_RISK_TOO_HIGH]), execute
    [return] inside [run]'s [try], so the position-management loop below
    does not run in that cycle: the two shares of instrument 7 at +2%
    receive no breakeven stop, scale-out or trailing stop, whereas the
    same account with no signal row receives all three. *)
Theorem run_denial_skips_position_management :
  s_placed (snd (run default_engine "XYZ" (brk_pm rows_null_conid) st_empty)) = [] /\
  s_placed (snd (run default_engine "XYZ" brk_pm_small st_empty)) = [] /\
  map order_shape (s_placed (snd (run default_engine "XYZ" (brk_pm []) st_empty))) =
    [(Some 7%Z, "SELL", "STP", 2%Z); (Some 7%Z, "SELL", "MKT", 1%Z);
     (Some 7%Z, "SELL", "TRAIL", 2%Z)].
Proof. vm_compute. split; [reflexivity|split; reflexivity]. Qed.

(* ================================================================== *)
(** * Further properties of the engine *)

(* ------------------------------------------------------------------ *)
(** ** Prices *)

Lemma positive_field_pos (x : option Q) (q : Q) : positive_field x = Some q -> 0 < q.
Proof.
  destruct x as [v|]; cbn; [|discriminate].
  destruct (Qlt_bool 0 v) eqn:E; [|discriminate]. intros [= <-].
  unfold Qlt_bool in E. apply negb_true_iff in E.
  destruct (Qlt_le_dec 0 v) as [H|H]; [exact H|].
  apply Qle_bool_iff in H. congruence.
Qed.

(** [get_mark_price_snapshot] never yields a non-positive mark; with a
    positive bid and ask the mark is their midpoint, hence lies between
    them; otherwise it is the positive last price, else the positive
    close. *)
Theorem mark_price_snapshot_spec (conid : Z) (b : Broker) (s s' : St) (m : Q) :
  get_mark_price_snapshot conid b s = (Ok (Some m), s') ->
  s' = s /\ 0 < m /\
  exists qt, b_quote b conid = Some qt /\
    match positive_field (q_bid qt), positive_field (q_ask qt) with
    | Some bid, Some ask => m = (bid + ask) / 2 /\ (bid <= m <= ask \/ ask <= m <= bid)
    | _, _ => positive_field (q_last qt) = Some m \/
              (positive_field (q_last qt) = None /\ positive_field (q_close qt) = Some m)
    end.
Proof.
  unfold get_mark_price_snapshot. destruct (b_quote b conid) as [qt|] eqn:Hq; [|discriminate].
  intros [= Hm <-]. split; [reflexivity|].
  unfold mark_of_quote in Hm.
  destruct (positive_field (q_bid qt)) as [bid|] eqn:Hb;
    destruct (positive_field (q_ask qt)) as [ask|] eqn:Ha;
    [|destruct (positive_field (q_last qt)) as [l|] eqn:Hl..].
  - injection Hm as <-.
    pose proof (positive_field_pos _ _ Hb) as Pb. pose proof (positive_field_pos _ _ Ha) as Pa.
    split; [apply Qlt_shift_div_l; [reflexivity|lra]|].
    exists qt. rewrite Hb, Ha. split; [reflexivity|]. split; [reflexivity|].
    destruct (Qlt_le_dec bid ask); [left|right];
      (split; [apply Qle_shift_div_l|apply Qle_shift_div_r]; [reflexivity|lra|reflexivity|lra]).
  - injection Hm as <-. split; [eapply positive_field_pos; eauto|].
    exists qt. rewrite Hb, Ha. auto.
  - split; [eapply positive_field_pos; eauto|]. exists qt. rewrite Hb, Ha. auto.
  - injection Hm as <-. split; [eapply positive_field_pos; eauto|].
    exists qt. rewrite Hb. auto.
  - split; [eapply positive_field_pos; eauto|]. exists qt. rewrite Hb. auto.
  - injection Hm as <-. split; [eapply positive_field_pos; eauto|].
    exists qt. rewrite Hb. auto.
  - split; [eapply positive_field_pos; eauto|]. exists qt. rewrite Hb. auto.
Qed.

Lemma mark_price_snapshot_spec_witness :
  get_mark_price_snapshot 7 (brk_rth []) st_empty
    = (Ok (Some ((49.99 + 50.01) / 2)), st_empty) /\ 0 < (49.99 + 50.01) / 2.
Proof.
  assert (H : get_mark_price_snapshot 7 (brk_rth []) st_empty
                = (Ok (Some ((49.99 + 50.01) / 2)), st_empty)) by (vm_compute; reflexivity).
  split; [exact H|]. exact (proj1 (proj2 (mark_price_snapshot_spec _ _ _ _ _ H))).
Defined.

(** ** Which orders a computation may submit *)

Lemma placed_only_refl (P : Trade -> Prop) (s : St) : placed_only P s s.
Proof. exists []. split; [apply grows_nil|constructor]. Qed.

Lemma placed_only_trans (P : Trade -> Prop) (s0 s1 s2 : St) :
  placed_only P s0 s1 -> placed_only P s1 s2 -> placed_only P s0 s2.
Proof.
  intros (n1 & G1 & F1) (n2 & G2 & F2). exists (n1 ++ n2).
  split; [eapply grows_trans; eauto|by apply Forall_app].
Qed.

Lemma placed_only_nothing (s0 s : St) :
  placed_only (fun _ => False) s0 s -> s_placed s = s_placed s0 /\ s_trades s = s_trades s0.
Proof.
  intros (new & [P T] & F). destruct new as [|t new]; [by rewrite P, T, !app_nil_r|].
  inversion F; contradiction.
Qed.

Section OKeeps.
Variables (P : Trade -> Prop) (b : Broker).

Lemma okeeps_frame {A} (m : M A) :
  (forall s, s_trades (snd (m b s)) = s_trades s /\ s_placed (snd (m b s)) = s_placed s) ->
  okeeps P b m.
Proof.
  intros H s. destruct (H s) as [T Pl]. exists [].
  split; [split; by rewrite app_nil_r|constructor].
Qed.

Lemma okeeps_ret {A} (a : A) : okeeps P b (ret a).
Proof. intros s. apply placed_only_refl. Qed.

Lemma okeeps_inc (key : string) : okeeps P b (inc key).
Proof. apply okeeps_frame. intros s. split; reflexivity. Qed.

Lemma okeeps_modify (f : St -> St) :
  (forall s, s_trades (f s) = s_trades s /\ s_placed (f s) = s_placed s) ->
  okeeps P b (modify f).
Proof. intros H. apply okeeps_frame. exact H. Qed.

Lemma okeeps_bind {A B} (m : M A) (f : A -> M B) :
  okeeps P b m -> (forall a, okeeps P b (f a)) -> okeeps P b (bind m f).
Proof.
  intros Hm Hf s. unfold bind. specialize (Hm s).
  destruct (m b s) as [[a|err] s1]; cbn in *; [|exact Hm].
  eapply placed_only_trans; [exact Hm|apply Hf].
Qed.

Lemma okeeps_try_except {A} (m : M A) (h : string -> M A) :
  okeeps P b m -> (forall err, okeeps P b (h err)) -> okeeps P b (try_except m h).
Proof.
  intros Hm Hh s. unfold try_except. specialize (Hm s).
  destruct (m b s) as [[a|err] s1]; cbn in *; [exact Hm|].
  eapply placed_only_trans; [exact Hm|apply Hh].
Qed.

Lemma okeeps_try_finally {A} (m : M A) (f : M unit) :
  okeeps P b m -> okeeps P b f -> okeeps P b (try_finally m f).
Proof.
  intros Hm Hf s. unfold try_finally. specialize (Hm s).
  destruct (m b s) as [r s1]. specialize (Hf s1).
  destruct (f b s1) as [r2 s2]. cbn in *.
  destruct r as [a|err], r2 as [u|err2]; cbn;
    (eapply placed_only_trans; [exact Hm|exact Hf]).
Qed.

Lemma okeeps_for_each {A} (f : A -> M unit) (xs : list A) :
  (forall x, x ∈ xs -> okeeps P b (f x)) -> okeeps P b (for_each f xs).
Proof.
  induction xs as [|x xs IH]; intros Hf; cbn [for_each]; [apply okeeps_ret|].
  apply okeeps_bind; [apply Hf; left|intros _; apply IH].
  intros y Hy. apply Hf. by right.
Qed.

Lemma okeeps_mark (conid : Z) : okeeps P b (get_mark_price_snapshot conid).
Proof.
  apply okeeps_frame. intros s. unfold get_mark_price_snapshot.
  destruct (b_quote b conid); split; reflexivity.
Qed.

Lemma okeeps_trades : okeeps P b trades.
Proof. apply okeeps_frame. intros s. split; reflexivity. Qed.

Lemma okeeps_is_rth_now : okeeps P b is_rth_now.
Proof. apply okeeps_frame. intros s. split; reflexivity. Qed.

Lemma okeeps_place_and_track (conid : Z) (o : Order) :
  (forall id, P (mkTrade (Some conid) (set_orderId id o) (b_status b))) ->
  okeeps P b (place_and_track conid o).
Proof.
  intros HP s. rewrite place_and_track_eq. destruct (b_place_ok b); cbn.
  - eexists. split; [apply grows_placed_state|]. repeat constructor. apply HP.
  - apply placed_only_refl.
Qed.

End OKeeps.

Lemma okeeps_pm_position (e : Engine) (b : Broker) (allow : bool) (p : Position) :
  p ∈ positions_STK (b_positions b) ->
  okeeps (fun t => allow = true /\ pm_order (risk e) b t) b (pm_position e allow p).
Proof.
  intros Hin. unfold pm_position. cbv zeta.
  destruct (py_int (p_position p) <=? 0)%Z eqn:Hq; [apply okeeps_ret|].
  apply Z.leb_gt in Hq.
  destruct (entry_from_position p) as [entry|] eqn:He; [|apply okeeps_ret].
  apply okeeps_bind; [apply okeeps_mark|]. intros [m|]; [|apply okeeps_ret].
  destruct (Qle_bool m 0); [apply okeeps_ret|].
  assert (Hord : forall o, pm_order_for (risk e) p o ->
            forall id, allow = true ->
            pm_order (risk e) b (mkTrade (Some (p_conid p)) (set_orderId id o) (b_status b))).
  { intros o Ho id _. split; [reflexivity|]. exists p. split; [exact Hin|].
    split; [reflexivity|]. split; [exact Hq|]. exact Ho. }
  apply okeeps_bind; [|intros _; apply okeeps_bind; [|intros _]].
  - unfold pm_be_step. apply okeeps_bind; [apply okeeps_trades|]. intros ts.
    destruct (_ && _); [|apply okeeps_ret].
    apply okeeps_bind; [apply okeeps_inc|]. intros _.
    apply okeeps_bind; [|intros _; apply okeeps_ret].
    unfold place_breakeven_stop. destruct allow eqn:Ha; cbn [negb]; [|apply okeeps_ret].
    apply okeeps_place_and_track. intros id. split; [reflexivity|].
    apply Hord; [|reflexivity]. split; [reflexivity|]. left.
    cbn. repeat split; [exact (eq_sym He)].
  - unfold pm_tp1_step. apply okeeps_bind; [apply okeeps_trades|]. intros ts.
    destruct (Qle_bool 1 _ && _ && _) eqn:G; [|apply okeeps_ret].
    apply andb_true_iff in G as [G _]. apply andb_true_iff in G as [_ G].
    apply Z.leb_le in G.
    apply okeeps_bind; [apply okeeps_inc|]. intros _.
    apply okeeps_bind; [|intros _; apply okeeps_ret].
    unfold place_sell_scaleout_1. destruct allow eqn:Ha; cbn [negb]; [|apply okeeps_ret].
    apply okeeps_bind; [apply okeeps_is_rth_now|]. intros [|].
    + apply okeeps_place_and_track. intros id. split; [reflexivity|].
      apply Hord; [|reflexivity]. split; [reflexivity|]. right; left.
      cbn. split; [set_solver|]. split; [reflexivity|exact G].
    + apply okeeps_bind; [apply okeeps_mark|]. intros [px|].
      * destruct (Qle_bool px 0).
        -- apply okeeps_bind; [apply okeeps_inc|intros _; apply okeeps_ret].
        -- apply okeeps_place_and_track. intros id. split; [reflexivity|].
           apply Hord; [|reflexivity]. split; [reflexivity|]. right; left.
           cbn. split; [set_solver|]. split; [reflexivity|exact G].
      * apply okeeps_bind; [apply okeeps_inc|intros _; apply okeeps_ret].
  - unfold pm_trail_step. apply okeeps_bind; [apply okeeps_trades|]. intros ts.
    destruct (negb _); [|apply okeeps_ret].
    apply okeeps_bind; [apply okeeps_inc|]. intros _.
    apply okeeps_bind; [|intros _; apply okeeps_ret].
    unfold place_trailing_stop. destruct allow eqn:Ha; cbn [negb]; [|apply okeeps_ret].
    apply okeeps_place_and_track. intros id. split; [reflexivity|].
    apply Hord; [|reflexivity]. split; [reflexivity|]. right; right.
    cbn. repeat split.
Qed.

Lemma okeeps_position_management (e : Engine) (b : Broker) (allow : bool) :
  okeeps (fun t => allow = true /\ pm_order (risk e) b t) b (position_management e allow).
Proof.
  intros s. unfold position_management, bind at 1, get_positions. cbn beta iota.
  revert s. apply okeeps_for_each. intros p Hp.
  apply okeeps_try_except; [by apply okeeps_pm_position|]. intros _. apply okeeps_inc.
Qed.

Lemma okeeps_load_latest_signal (P : Trade -> Prop) (b : Broker) (symbol : string) :
  okeeps P b (load_latest_signal symbol).
Proof.
  apply okeeps_frame. intros s. unfold load_latest_signal, bind, ask, ret, log_error, inc, modify.
  cbn. destruct (b_db b); split; reflexivity.
Qed.

Lemma okeeps_entry_section_denied (e : Engine) (b : Broker) (symbol : string)
  (allow_exits : bool) (mtr : Q) :
  okeeps (fun _ => False) b (entry_section e symbol false allow_exits mtr).
Proof.
  unfold entry_section. apply okeeps_bind; [apply okeeps_load_latest_signal|].
  intros [row|]; [|apply okeeps_ret].
  apply okeeps_bind; [apply okeeps_inc|]. intros _.
  destruct (safe_int (sig_con_id row)) as [conid|].
  - apply okeeps_bind; [|intros al; destruct al; apply okeeps_ret].
    apply okeeps_frame. intros s. split; reflexivity.
  - apply okeeps_bind; [apply okeeps_inc|intros _; apply okeeps_ret].
Qed.

Lemma okeeps_bind_ret (P : Trade -> Prop) (b : Broker) {A B} (a : A) (f : A -> M B) :
  okeeps P b (f a) -> okeeps P b (bind (ret a) f).
Proof. intros H s. exact (H s). Qed.

Lemma okeeps_mono (P Q' : Trade -> Prop) (b : Broker) {A} (m : M A) :
  (forall t, P t -> Q' t) -> okeeps P b m -> okeeps Q' b m.
Proof.
  intros HPQ Hm s. destruct (Hm s) as (new & G & F). exists new.
  split; [exact G|]. eapply Forall_impl; [exact F|exact HPQ].
Qed.

(** ** Position management only sells what is held *)

(** [position_management] submits only SELL orders, each for a stock
    position of [ib.positions()] whose [int(position)] is positive and
    with that position's contract: a stop at the position's entry price
    ([avgCost]) for [int(position)] shares flagged [outsideRth], a
    one-share MKT/LMT scale-out when [int(position) >= 2], or a trailing
    stop for [int(position)] shares with [trail_pct * 100] percent and
    [trail_tif]; it never buys, never sells more shares than
    [int(position)] in one order, and with exits disallowed it submits
    nothing. *)
Theorem position_management_orders (e : Engine) (b : Broker) (allow : bool) (s : St) :
  exists new, grows s (snd (position_management e allow b s)) new /\
    Forall (fun t => allow = true /\ pm_order (risk e) b t) new.
Proof. apply okeeps_position_management. Qed.

(** ** A dry run never buys *)

(** With [execute_trades_default = false], [run] never submits a BUY:
    every order it submits is one of position management's protective
    sells (see [pm_order]), and those only when [allow_exits_when_killed]
    holds; otherwise it submits no order at all. *)
Theorem run_dry_run_orders (e : Engine) (symbol : string) (b : Broker) (s : St) :
  execute_trades_default e = false ->
  exists new, grows s (snd (run e symbol b s)) new /\
    Forall (fun t => allow_exits_when_killed e = true /\ pm_order (risk e) b t) new.
Proof.
  intros Hx. revert s.
  change (okeeps (fun t => allow_exits_when_killed e = true /\ pm_order (risk e) b t) b
            (run e symbol)).
  unfold run. apply okeeps_bind; [apply okeeps_modify; intros s; split; reflexivity|]. intros _.
  apply okeeps_try_finally;
    [|apply okeeps_modify; intros s; split; reflexivity].
  unfold run_body. rewrite Hx. cbn [orb andb].
  apply okeeps_bind; [apply okeeps_frame; intros s; unfold connect;
                      destruct (b_connect_ok b); split; reflexivity|]. intros _.
  apply okeeps_bind; [apply okeeps_frame; intros s; unfold accountSummary;
                      destruct (b_account b); split; reflexivity|]. intros rows.
  apply okeeps_bind_ret.
  apply okeeps_bind; [apply okeeps_trades|]. intros ts.
  apply okeeps_bind; [apply okeeps_frame; intros s; split; reflexivity|]. intros st.
  apply okeeps_bind; [apply okeeps_frame; intros s; split; reflexivity|]. intros b'.
  unfold entry_gates. cbn [andb].
  apply okeeps_bind.
  { eapply okeeps_mono; [|apply okeeps_entry_section_denied]. intros t []. }
  intros [|]; [|apply okeeps_ret].
  apply okeeps_bind; [apply okeeps_position_management|]. intros _.
  apply okeeps_modify. intros s. split; reflexivity.
Qed.

Lemma run_dry_run_orders_witness :
  execute_trades_default (mkEngine default_risk false false) = false /\
  s_placed (snd (run (mkEngine default_risk false false) "XYZ" (brk_pm []) st_empty)) = [].
Proof.
  split; [reflexivity|].
  destruct (run_dry_run_orders (mkEngine default_risk false false) "XYZ" (brk_pm []) st_empty
              eq_refl) as (new & [P _] & F).
  rewrite P. destruct new as [|t new]; [reflexivity|].
  inversion F as [|? ? [H _] _]. discriminate H.
Defined.

(** ** Rounding to cents *)

Lemma round_half_even_bounds (y : Q) :
  y - (1 # 2) <= inject_Z (round_half_even y) <= y + (1 # 2).
Proof.
  unfold round_half_even. cbv zeta.
  pose proof (Qfloor_le y) as L. pose proof (Qlt_floor y) as U.
  rewrite inject_Z_plus in U. change (inject_Z 1) with 1 in U.
  destruct (Qcompare (y - inject_Z (Qfloor y)) (1 # 2)) eqn:E.
  - apply Qeq_alt in E.
    destruct (Z.even (Qfloor y)); [|rewrite inject_Z_plus; change (inject_Z 1) with 1];
      split; lra.
  - apply Qlt_alt in E. split; lra.
  - apply Qgt_alt in E. rewrite inject_Z_plus; change (inject_Z 1) with 1. split; lra.
Qed.

Lemma round_half_even_comp (x y : Q) : x == y -> round_half_even x = round_half_even y.
Proof.
  intros H. unfold round_half_even. rewrite (Qfloor_comp x y H).
  assert (Hc : (x - inject_Z (Qfloor y) ?= 1 # 2) = (y - inject_Z (Qfloor y) ?= 1 # 2)).
  { apply Qcompare_comp; [rewrite H|]; reflexivity. }
  now rewrite Hc.
Qed.

Lemma round_half_even_Z (n : Z) : round_half_even (inject_Z n) = n.
Proof.
  unfold round_half_even. rewrite Qfloor_Z.
  replace (inject_Z n - inject_Z n ?= 1 # 2) with Lt; [reflexivity|].
  symmetry. apply Qlt_alt. unfold Qminus. rewrite Qplus_opp_r. reflexivity.
Qed.

(** [round(x, 2)] as the engine computes limit prices: the result is
    within half a cent of [x], and a price that already is a whole number
    of cents is left unchanged. *)
Theorem round2_half_cent (x : Q) (n : Z) :
  x - (1 # 200) <= round2 x <= x + (1 # 200) /\
  round2 (inject_Z n / 100) == inject_Z n / 100.
Proof.
  split.
  - unfold round2. pose proof (round_half_even_bounds (x * 100)) as [L U].
    split; [apply Qle_shift_div_l|apply Qle_shift_div_r]; try reflexivity; lra.
  - unfold round2.
    rewrite (round_half_even_comp _ (inject_Z n)); [rewrite round_half_even_Z; reflexivity|].
    field.
Qed.

(** ** Scale-out routing *)

(** [place_sell_scaleout_1] (exits allowed, the broker accepting orders):
    outside regular hours with a mark price [m > 0] it submits a one-share
    LIMIT SELL at [round(m * 0.998, 2)] flagged [outsideRth]; outside
    regular hours without a mark price it submits nothing and counts a
    ["skips_no_price"] (a quote the broker does not deliver at all raises
    instead); during regular hours it submits a one-share MARKET SELL. *)
Theorem place_sell_scaleout_1_session_routing (conid : Z) (b : Broker) (s : St) :
  b_place_ok b = true ->
  (b_rth b = false -> forall m, (b_quote b conid ≫= mark_of_quote) = Some m -> 0 < m ->
     s_placed (snd (place_sell_scaleout_1 conid true b s))
     = s_placed s ++ [mkTrade (Some conid)
                        (mkOrder (s_next_id s) "SELL" "LMT" 1 (Some (round2 (m * 0.998)))
                           None None EmptyString true) (b_status b)]) /\
  (b_rth b = false -> forall qt, b_quote b conid = Some qt -> mark_of_quote qt = None ->
     s_placed (snd (place_sell_scaleout_1 conid true b s)) = s_placed s /\
     stat "skips_no_price" (s_stats (snd (place_sell_scaleout_1 conid true b s)))
     = (stat "skips_no_price" (s_stats s) + 1)%Z) /\
  (b_rth b = true ->
     s_placed (snd (place_sell_scaleout_1 conid true b s))
     = s_placed s ++ [mkTrade (Some conid)
                        (mkOrder (s_next_id s) "SELL" "MKT" 1 None None None EmptyString false)
                        (b_status b)]).
Proof.
  intros Hok.
  unfold place_sell_scaleout_1, place_and_track, bind, ret, is_rth_now,
    get_mark_price_snapshot, placeOrder, track_trade, inc, modify; cbn -[mark_of_quote round2].
  split; [|split].
  - intros Hr m Hm Hpos. rewrite Hr.
    destruct (b_quote b conid) as [qt|]; cbn in Hm; [|discriminate].
    rewrite Hm. destruct (Qle_bool m 0) eqn:E.
    + apply Qle_bool_iff in E. exfalso. by apply (Qlt_not_le _ _ Hpos).
    + cbn. by rewrite Hok.
  - intros Hr qt Hq Hm. rewrite Hr, Hq, Hm. cbn.
    split; [reflexivity|]. unfold stat. by rewrite lookup_insert_eq.
  - intros Hr. rewrite Hr. cbn. by rewrite Hok.
Qed.

Lemma place_sell_scaleout_1_session_routing_witness :
  b_place_ok brk_after_hours = true /\
  s_placed (snd (place_sell_scaleout_1 777 true brk_after_hours st_empty))
  = [mkTrade (Some 777%Z) (mkOrder 1 "SELL" "LMT" 1 (Some (round2 (50 * 0.998)))
                              None None EmptyString true) "Submitted"].
Proof.
  split; [reflexivity|].
  destruct (place_sell_scaleout_1_session_routing 777 brk_after_hours st_empty eq_refl)
    as [H _].
  apply (H eq_refl 50); reflexivity.
Defined.

(** ** Positions position management skips *)

Lemma pm_position_noop (e : Engine) (allow : bool) (p : Position) (b : Broker) (s : St) :
  (py_int (p_position p) <= 0)%Z \/ entry_from_position p = None \/
  (exists qt, b_quote b (p_conid p) = Some qt /\ mark_of_quote qt = None) ->
  pm_position e allow p b s = (Ok tt, s).
Proof.
  intros H. unfold pm_position. cbv zeta.
  destruct (py_int (p_position p) <=? 0)%Z eqn:Hq; [reflexivity|].
  apply Z.leb_gt in Hq.
  destruct H as [H|[H|(qt & Hb & Hm)]]; [lia|rewrite H; reflexivity|].
  destruct (entry_from_position p); [|reflexivity].
  unfold bind, get_mark_price_snapshot. rewrite Hb, Hm. reflexivity.
Qed.

(** One position of the management loop is skipped, with the state left
    exactly as it was (no order, no counter), when [int(position) <= 0],
    when it has no positive [avgCost], or when its quote yields no mark
    price. *)
Theorem pm_position_skips (e : Engine) (allow : bool) (p : Position) (b : Broker) (s : St) :
  (py_int (p_position p) <= 0)%Z \/ entry_from_position p = None \/
  (exists qt, b_quote b (p_conid p) = Some qt /\ mark_of_quote qt = None) ->
  pm_position e allow p b s = (Ok tt, s).
Proof. apply pm_position_noop. Qed.

Lemma pm_position_skips_witness :
  ((py_int (p_position (mkPosition 7 "STK" 2 None)) <= 0)%Z \/
   entry_from_position (mkPosition 7 "STK" 2 None) = None \/
   (exists qt, b_quote (brk_pm []) 7 = Some qt /\ mark_of_quote qt = None)) /\
  pm_position default_engine true (mkPosition 7 "STK" 2 None) (brk_pm []) st_empty
  = (Ok tt, st_empty).
Proof.
  assert (H : (py_int (p_position (mkPosition 7 "STK" 2 None)) <= 0)%Z \/
              entry_from_position (mkPosition 7 "STK" 2 None) = None \/
              (exists qt, b_quote (brk_pm []) 7 = Some qt /\ mark_of_quote qt = None))
    by (right; left; reflexivity).
  split; [exact H|]. exact (pm_position_skips default_engine true _ (brk_pm []) st_empty H).
Defined.

(** ** Fractional positions *)

Lemma py_int_fraction (q : Q) : 0 < q -> q < 1 -> py_int q = 0%Z.
Proof.
  intros H0 H1. unfold py_int. unfold Qlt in H0, H1. cbn in H0, H1.
  apply Z.quot_small. lia.
Qed.

(** A stock position of less than one share ([0 < position < 1]) counts
    as already long for its instrument, so it blocks new entries there,
    yet [int(position) = 0] makes position management skip it without
    protecting it by any order. *)
Theorem fractional_position_long_but_unmanaged (e : Engine) (allow : bool) (p : Position)
  (b : Broker) (s : St) :
  In p (b_positions b) -> p_secType p = "STK" -> 0 < p_position p -> p_position p < 1 ->
  already_long_conid (p_conid p) b s = (Ok true, s) /\
  pm_position e allow p b s = (Ok tt, s).
Proof.
  intros Hin Hstk H0 H1. split.
  - unfold already_long_conid, bind, get_positions, ret. do 2 f_equal.
    apply existsb_exists. exists p. split.
    + unfold positions_STK. apply filter_In. split; [exact Hin|]. rewrite Hstk. reflexivity.
    + apply andb_true_iff. split; [by apply bool_decide_eq_true|].
      unfold Qlt_bool. apply negb_true_iff.
      destruct (Qle_bool (p_position p) 0) eqn:E; [|reflexivity].
      apply Qle_bool_iff in E. exfalso. exact (Qlt_not_le _ _ H0 E).
  - apply pm_position_noop. left. rewrite (py_int_fraction _ H0 H1). lia.
Qed.

Lemma fractional_position_long_but_unmanaged_witness :
  In (mkPosition 5 "STK" (1 # 2) (Some 20)) (b_positions brk_half_share) /\
  already_long_conid 5 brk_half_share st_empty = (Ok true, st_empty) /\
  pm_position default_engine true (mkPosition 5 "STK" (1 # 2) (Some 20)) brk_half_share st_empty
  = (Ok tt, st_empty).
Proof.
  split; [left; reflexivity|].
  apply (fractional_position_long_but_unmanaged default_engine true
           (mkPosition 5 "STK" (1 # 2) (Some 20)) brk_half_share st_empty);
    [left; reflexivity|reflexivity|reflexivity|reflexivity].
Defined.

(** ** Finished orders are invisible to the guards *)

(** A trade whose status is not working (e.g. [Cancelled] or [Filled])
    changes none of the guards: wherever it sits in [ib.trades()], the
    breakeven-stop, scale-out and trailing-stop classifiers and the list
    of open entry orders (the open-order cap and the order-age gate) are
    those of the list without it. *)
Theorem non_working_trade_ignored (ts1 ts2 : list Trade) (t : Trade) (c : Z) :
  working_status (t_status t) = false ->
  has_working_breakeven_stop (ts1 ++ t :: ts2) c = has_working_breakeven_stop (ts1 ++ ts2) c /\
  has_working_scaleout_sell (ts1 ++ t :: ts2) c = has_working_scaleout_sell (ts1 ++ ts2) c /\
  has_working_trailing_sell (ts1 ++ t :: ts2) c = has_working_trailing_sell (ts1 ++ ts2) c /\
  open_entry_trades (ts1 ++ t :: ts2) = open_entry_trades (ts1 ++ ts2).
Proof.
  intros Hw.
  assert (Ho : open_trades_for_conid (ts1 ++ t :: ts2) c = open_trades_for_conid (ts1 ++ ts2) c).
  { unfold open_trades_for_conid. rewrite !List.filter_app. cbn.
    destruct (t_contract t); [|reflexivity]. by rewrite Hw, andb_false_r. }
  split; [unfold has_working_breakeven_stop; by rewrite Ho|].
  split; [unfold has_working_scaleout_sell; by rewrite Ho|].
  split.
  - unfold has_working_trailing_sell. rewrite !existsb_app. cbn. by rewrite Hw.
  - unfold open_entry_trades. rewrite !List.filter_app. cbn. by rewrite Hw.
Qed.

Lemma non_working_trade_ignored_witness :
  working_status "Cancelled" = false /\
  has_working_trailing_sell
    [mkTrade (Some 7%Z) (mkOrder 3 "SELL" "TRAIL" 2 None None (Some 2) "GTC" false) "Cancelled"] 7
  = false.
Proof.
  split; [reflexivity|].
  destruct (non_working_trade_ignored []
              [] (mkTrade (Some 7%Z) (mkOrder 3 "SELL" "TRAIL" 2 None None (Some 2) "GTC" false)
                    "Cancelled") 7 eq_refl) as (_ & _ & H & _).
  exact H.
Defined.

(** ** Kill switch without a buying power *)

Lemma for_each_never_raises {A} (f : A -> M unit) (xs : list A) (b : Broker) :
  (forall x s, fst (f x b s) = Ok tt) -> forall s, fst (for_each f xs b s) = Ok tt.
Proof.
  intros Hf. induction xs as [|x xs IH]; intros s; [reflexivity|].
  cbn [for_each]. unfold bind. specialize (Hf x s).
  destruct (f x b s) as [r s1]. cbn in Hf. subst r. apply IH.
Qed.

Lemma close_all_stock_positions_never_raises (allow : bool) (b : Broker) (s : St) :
  fst (close_all_stock_positions allow b s) = Ok tt.
Proof.
  unfold close_all_stock_positions. destruct allow; cbn [negb]; [|reflexivity].
  unfold bind at 1, get_positions. apply for_each_never_raises.
  intros p s1. unfold liquidate_one, try_except.
  destruct (_ b s1) as [[[]|err] s2]; reflexivity.
Qed.

(** When the account summary carries neither a numeric [BuyingPower] nor
    a numeric [AvailableFunds], the daily risk budget is [0], so any daily
    PnL [<= 0] (a flat day included) trips the kill switch: it runs the
    liquidation of all stock positions (when exits are allowed) and
    returns [False], blocking new entries. *)
Theorem killswitch_without_buying_power (cfg : RiskConfig) (rows : list (string * option string))
  (allow : bool) (d : Q) (b : Broker) (s : St) :
  acct_of rows !! "BuyingPower" = None -> acct_of rows !! "AvailableFunds" = None ->
  b_daily_pnl b = Some d -> d <= 0 ->
  enforce_daily_loss_killswitch (max_day_risk cfg rows) allow b s
  = (Ok false, snd (close_all_stock_positions allow b s)).
Proof.
  intros Hbp Haf Hd Hle.
  unfold enforce_daily_loss_killswitch, max_day_risk, buying_power, bind at 1, get_daily_pnl.
  rewrite Hbp, Haf, Hd.
  replace (Qle_bool d (- (0 * per_day_risk_pct cfg))) with true.
  - unfold bind. pose proof (close_all_stock_positions_never_raises allow b s) as H.
    destruct (close_all_stock_positions allow b s) as [r s1]. cbn in H. subst r. reflexivity.
  - symmetry. apply Qle_bool_iff. rewrite Qmult_0_l. exact Hle.
Qed.

Lemma killswitch_without_buying_power_witness :
  acct_of [] !! "BuyingPower" = None /\ acct_of [] !! "AvailableFunds" = None /\
  b_daily_pnl brk_half_share = Some (-150) /\
  fst (enforce_daily_loss_killswitch (max_day_risk default_risk []) true brk_half_share st_empty)
  = Ok false.
Proof.
  split; [reflexivity|]. split; [reflexivity|]. split; [reflexivity|].
  rewrite (killswitch_without_buying_power default_risk [] true (-150) brk_half_share st_empty);
    [reflexivity|reflexivity|reflexivity|reflexivity|].
  unfold Qle. cbn. lia.
Defined.

(** ** Reading instrument ids *)

Lemma decimal_digits_value (fuel : nat) (n : Z) (acc : list Z) :
  (0 <= n)%Z ->
  fold_left (fun a d => a * 10 + d)%Z (decimal_digits fuel n acc) 0%Z
  = fold_left (fun a d => a * 10 + d)%Z acc n.
Proof.
  revert n acc. induction fuel as [|f IH]; intros n acc Hn; cbn [decimal_digits]; [reflexivity|].
  destruct (n <? 10)%Z; [reflexivity|].
  rewrite IH by (apply Z.div_pos; lia). cbn.
  f_equal. pose proof (Z.div_mod n 10). lia.
Qed.

Lemma decimal_digits_range (fuel : nat) (n : Z) (acc : list Z) :
  (0 <= n)%Z -> (Z.to_nat n <= fuel)%nat -> Forall (fun d => 0 <= d < 10)%Z acc ->
  Forall (fun d => 0 <= d < 10)%Z (decimal_digits fuel n acc) /\
  decimal_digits fuel n acc <> [].
Proof.
  revert n acc. induction fuel as [|f IH]; intros n acc Hn Hf Ha; cbn [decimal_digits].
  - assert (n = 0%Z) by lia. subst n. split; [constructor; [lia|exact Ha]|done].
  - destruct (n <? 10)%Z eqn:E.
    + apply Z.ltb_lt in E. split; [constructor; [lia|exact Ha]|done].
    + apply Z.ltb_ge in E. apply IH.
      * apply Z.div_pos; lia.
      * assert (n / 10 < n)%Z by (apply Z.div_lt; lia). lia.
      * constructor; [|exact Ha]. pose proof (Z.mod_pos_bound n 10). lia.
Qed.

Lemma digit_char_cases (d : Z) :
  (0 <= d < 10)%Z -> d = 0%Z \/ d = 1%Z \/ d = 2%Z \/ d = 3%Z \/ d = 4%Z \/
                     d = 5%Z \/ d = 6%Z \/ d = 7%Z \/ d = 8%Z \/ d = 9%Z.
Proof. lia. Qed.

Ltac digit_cases H :=
  apply digit_char_cases in H;
  repeat destruct H as [H|H]; subst; reflexivity.

Lemma digit_val_char (d : Z) : (0 <= d < 10)%Z -> digit_val (digit_char d) = Some d.
Proof. intros H. digit_cases H. Qed.

Lemma is_space_digit_char (d : Z) : (0 <= d < 10)%Z -> is_space (digit_char d) = false.
Proof. intros H. digit_cases H. Qed.

Lemma dot_digit_char (d : Z) : (0 <= d < 10)%Z -> Ascii.eqb (digit_char d) "."%char = false.
Proof. intros H. digit_cases H. Qed.

Lemma take_digits_chars (ds : list Z) (rest : list Ascii.ascii) :
  Forall (fun d => 0 <= d < 10)%Z ds ->
  (match rest with c :: _ => digit_val c = None | [] => True end) ->
  take_digits (map digit_char ds ++ rest) = (ds, rest).
Proof.
  intros Hds Hr. induction Hds as [|d ds Hd _ IH]; cbn.
  - destruct rest as [|c r]; [reflexivity|]. cbn. by rewrite Hr.
  - rewrite digit_val_char by exact Hd. by rewrite IH.
Qed.

Lemma drop_spaces_id (l : list Ascii.ascii) :
  Forall (fun c => is_space c = false) l -> drop_spaces l = l.
Proof. intros H. destruct H as [|c l Hc _]; cbn; [reflexivity|]. by rewrite Hc. Qed.

Lemma strip_chars_id (l : list Ascii.ascii) :
  Forall (fun c => is_space c = false) l -> strip_chars l = l.
Proof.
  intros H. unfold strip_chars. rewrite (drop_spaces_id l H).
  rewrite drop_spaces_id; [apply rev_involutive|]. by apply Forall_rev.
Qed.

(** The characters of [str(n)]: the sign, then the digit list. *)
Lemma decimal_digits_length (fuel : nat) (n : Z) (acc : list Z) (k : nat) :
  (0 <= n)%Z -> (n < 10 ^ Z.of_nat (S k))%Z ->
  (length (decimal_digits fuel n acc) <= length acc + S k)%nat.
Proof.
  revert n acc k. induction fuel as [|f IH]; intros n acc k Hn Hk; cbn [decimal_digits].
  - cbn [length]. lia.
  - destruct (n <? 10)%Z eqn:E; [cbn [length]; lia|].
    apply Z.ltb_ge in E. destruct k as [|k]; [cbn in Hk; lia|].
    assert (Hd : (n / 10 < 10 ^ Z.of_nat (S k))%Z).
    { apply Z.div_lt_upper_bound; [lia|].
      rewrite (Nat2Z.inj_succ (S k)), Z.pow_succ_r in Hk by lia. lia. }
    pose proof (IH (n / 10)%Z ((n mod 10)%Z :: acc) k ltac:(apply Z.div_pos; lia) Hd) as H.
    cbn [length] in H. lia.
Qed.

Lemma py_str_int_chars (n : Z) :
  exists ds, Forall (fun d => 0 <= d < 10)%Z ds /\ ds <> [] /\
    fold_left (fun a d => a * 10 + d)%Z ds 0%Z = Z.abs n /\
    list_ascii_of_string (py_str_int n)
    = (if (n <? 0)%Z then ["-"%char] else []) ++ map digit_char ds /\
    (forall k, (Z.abs n < 10 ^ Z.of_nat (S k))%Z -> (length ds <= S k)%nat).
Proof.
  exists (decimal_digits (Z.to_nat (Z.abs n)) (Z.abs n) []).
  destruct (decimal_digits_range (Z.to_nat (Z.abs n)) (Z.abs n) [])
    as [Hr Hne]; [lia|lia|constructor|].
  split; [exact Hr|]. split; [exact Hne|]. split; [|split].
  - rewrite decimal_digits_value by lia. reflexivity.
  - unfold py_str_int. apply list_ascii_of_string_of_list_ascii.
  - intros k Hk. pose proof (decimal_digits_length (Z.to_nat (Z.abs n)) (Z.abs n) [] k
                               ltac:(lia) Hk) as H.
    cbn [length] in H. exact H.
Qed.

Lemma split_sign_digits (d : Z) (r : list Ascii.ascii) :
  (0 <= d < 10)%Z -> split_sign (digit_char d :: r) = (1%Z, digit_char d :: r).
Proof. intros H. digit_cases H. Qed.

Lemma py_str_int_split (n : Z) (ds : list Z) (rest : list Ascii.ascii) :
  Forall (fun d => 0 <= d < 10)%Z ds -> ds <> [] ->
  split_sign ((if (n <? 0)%Z then ["-"%char] else []) ++ map digit_char ds ++ rest)
  = (if (n <? 0)%Z then (-1)%Z else 1%Z, map digit_char ds ++ rest).
Proof.
  intros Hr Hne. destruct (n <? 0)%Z; [reflexivity|].
  destruct ds as [|d ds]; [done|]. inversion Hr; subst. cbn. by apply split_sign_digits.
Qed.

Lemma sign_abs (n : Z) : ((if (n <? 0)%Z then (-1)%Z else 1%Z) * Z.abs n)%Z = n.
Proof. destruct (Z.ltb_spec n 0); lia. Qed.

Lemma no_dot_digits (ds : list Z) :
  Forall (fun d => 0 <= d < 10)%Z ds ->
  existsb (fun c => Ascii.eqb c "."%char) (map digit_char ds) = false.
Proof.
  intros H. induction H as [|d ds Hd _ IH]; [reflexivity|].
  cbn. rewrite dot_digit_char by exact Hd. exact IH.
Qed.

Lemma drop_spaces_all (l : list Ascii.ascii) :
  Forall (fun c => is_space c = true) l -> drop_spaces l = [].
Proof. intros H. induction H as [|c l Hc _ IH]; cbn; [reflexivity|]. by rewrite Hc. Qed.

(** [_safe_int] reads back an instrument id written as [str(n)]: it
    gives [n] for every integer [n] of at most 4300 digits (the longest
    [str] and [int] convert by default); a string of blanks (the empty
    one included) gives [None]. *)
Theorem safe_int_reads_printed_ints (n : Z) (Hn : (Z.abs n < 10 ^ 4300)%Z) :
  safe_int (VStr (py_str_int n)) = Some n /\
  (forall s, Forall (fun c => is_space c = true) (list_ascii_of_string s) ->
   safe_int (VStr s) = None).
Proof.
  destruct (py_str_int_chars n) as (ds & Hr & Hne & Hv & Hs & Hl).
  set (sg := if (n <? 0)%Z then ["-"%char] else []) in Hs.
  assert (Hsp : forall rest, Forall (fun c => is_space c = false) rest ->
            Forall (fun c => is_space c = false) (sg ++ map digit_char ds ++ rest)).
  { intros rest Hrest. apply Forall_app. split; [unfold sg; destruct (n <? 0)%Z; repeat constructor|].
    apply Forall_app. split; [|exact Hrest].
    apply Forall_map. eapply Forall_impl; [exact Hr|]. apply is_space_digit_char. }
  assert (Hne' : forall rest,
            String.eqb (string_of_list_ascii (sg ++ map digit_char ds ++ rest)) EmptyString = false).
  { intros rest. unfold sg. destruct (n <? 0)%Z; [reflexivity|]. destruct ds; [done|reflexivity]. }
  assert (Hsg : forall rest, split_sign (sg ++ map digit_char ds ++ rest)
                  = (if (n <? 0)%Z then (-1)%Z else 1%Z, map digit_char ds ++ rest)).
  { intros rest. unfold sg. by apply py_str_int_split. }
  split.
  - unfold safe_int. rewrite Hs, <- (app_nil_r (map digit_char ds)).
    rewrite (strip_chars_id _ (Hsp [] (List.Forall_nil _))), Hne'.
    unfold has_dot. rewrite list_ascii_of_string_of_list_ascii, app_nil_r, existsb_app.
    rewrite no_dot_digits by exact Hr.
    replace (existsb _ sg) with false by (unfold sg; destruct (n <? 0)%Z; reflexivity).
    cbn [orb]. unfold py_int_str. rewrite list_ascii_of_string_of_list_ascii.
    rewrite <- (app_nil_r (map digit_char ds)), Hsg.
    rewrite take_digits_chars by (exact Hr || exact I).
    assert (Hl' : (4300 <? length ds)%nat = false)
      by (apply Nat.ltb_ge; exact (Hl 4299%nat Hn)).
    destruct ds as [|d ds]; [done|]. rewrite Hl'.
    unfold digits_value. rewrite Hv. f_equal. apply sign_abs.
  - intros s Hb. unfold safe_int, strip_chars. rewrite (drop_spaces_all _ Hb). reflexivity.
Qed.

Lemma safe_int_reads_printed_ints_witness :
  (Z.abs (-4200) < 10 ^ 4300)%Z /\ safe_int (VStr (py_str_int (-4200))) = Some (-4200)%Z.
Proof.
  split; [vm_compute; reflexivity|].
  apply (proj1 (safe_int_reads_printed_ints (-4200) ltac:(vm_compute; reflexivity))).
Defined.

(** ** Position management logs its failures and goes on *)

(** [position_management] never raises. With the broker accepting
    orders, it adds to ["errs"] exactly one per stock position whose
    management reaches the quote request ([int(position) > 0], positive
    [avgCost]) and whose request fails, wherever that position stands in
    the list: each failure is caught by the loop's [except], logged, and
    the loop goes on with the next position. *)
Theorem position_management_logs_failures (e : Engine) (allow : bool) (b : Broker) (s : St) :
  fst (position_management e allow b s) = Ok tt /\
  (b_place_ok b = true ->
   stat "errs" (s_stats (snd (position_management e allow b s)))
   = (stat "errs" (s_stats s)
      + Z.of_nat (length (List.filter (pm_quote_missing b) (positions_STK (b_positions b)))))%Z).
Proof.
  unfold position_management, bind at 1, get_positions. cbv beta iota. split.
  - apply for_each_never_raises. intros p s1. unfold try_except.
    destruct (pm_position e allow p b s1) as [[[]|err] s2]; reflexivity.
  - intros Hp. apply (pm_loop_errs e allow b _ s Hp).
Qed.

Lemma position_management_logs_failures_witness :
  b_place_ok brk_gaps = true /\
  stat "errs" (s_stats (snd (position_management default_engine true brk_gaps st_empty))) = 2%Z /\
  map order_shape (s_placed (snd (position_management default_engine true brk_gaps st_empty)))
  = [(Some 7%Z, "SELL", "STP", 2%Z); (Some 7%Z, "SELL", "MKT", 1%Z);
     (Some 7%Z, "SELL", "TRAIL", 2%Z)].
Proof.
  split; [reflexivity|]. split; [|vm_compute; reflexivity].
  destruct (position_management_logs_failures default_engine true brk_gaps st_empty) as [_ H].
  rewrite (H eq_refl). vm_compute. reflexivity.
Defined.

(** ** An entry is followed by its trailing stop *)

Lemma mark_of_quote_pos (qt : Quote) (m : Q) : mark_of_quote qt = Some m -> 0 < m.
Proof.
  unfold mark_of_quote.
  destruct (positive_field (q_bid qt)) as [bid|] eqn:Hb;
    destruct (positive_field (q_ask qt)) as [ask|] eqn:Ha;
    [|destruct (positive_field (q_last qt)) as [l|] eqn:Hl..];
    intros Hm; try (injection Hm as <-); try (eapply positive_field_pos; eassumption).
  pose proof (positive_field_pos _ _ Hb). pose proof (positive_field_pos _ _ Ha).
  apply Qlt_shift_div_l; [reflexivity|lra].
Qed.

Lemma place_buy_entry_placed (conid q : Z) (qt : Quote) (m : Q) (b : Broker) (s : St) :
  b_place_ok b = true -> b_quote b conid = Some qt -> mark_of_quote qt = Some m ->
  let buy := if b_rth b then MarketOrder "BUY" q
             else set_outsideRth (LimitOrder "BUY" q (round2 (m * 1.002))) in
  place_buy_entry conid q true b s
  = (Ok (Some (mkTrade (Some conid) (set_orderId (s_next_id s) buy) (b_status b))),
     placed_state b s conid buy).
Proof.
  intros Hok Hq Hm buy. unfold buy, place_buy_entry. cbn [negb].
  unfold bind at 1, is_rth_now. destruct (b_rth b).
  - rewrite place_and_track_eq, Hok. reflexivity.
  - unfold bind, get_mark_price_snapshot. rewrite Hq, Hm.
    assert (Hpos : Qle_bool m 0 = false).
    { destruct (Qle_bool m 0) eqn:E; [|reflexivity]. apply Qle_bool_iff in E.
      exfalso. exact (Qlt_not_le _ _ (mark_of_quote_pos _ _ Hm) E). }
    rewrite Hpos. rewrite place_and_track_eq, Hok. reflexivity.
Qed.

(** An entry is protected at once: when [run]'s entry part finds a
    parsable signal for an instrument it is not long, a positive mark, a
    preflight within budget and a broker accepting orders, and no working
    trailing sell exists for the instrument, it submits the BUY
    ([MKT] in regular hours, otherwise [LMT] at [round(mark * 1.002, 2)]
    flagged [outsideRth]) and right after it a TRAIL SELL of the same
    quantity (even while the limit buy may still be unfilled), then falls
    through to position management. *)
Theorem entry_then_trailing_stop (e : Engine) (symbol : string) (mtr : Q) (b : Broker) (s : St)
  (rows : list SignalRow) (row : SignalRow) (conid : Z) (m : Q) :
  b_db b = Some rows -> latest_signal_row symbol rows = Some row ->
  safe_int (sig_con_id row) = Some conid ->
  existsb (fun p => bool_decide (p_conid p = conid) && Qlt_bool 0 (p_position p))
    (positions_STK (b_positions b)) = false ->
  (b_quote b conid ≫= mark_of_quote) = Some m ->
  preflight_denies (risk e) mtr m = false ->
  b_place_ok b = true ->
  has_working_trailing_sell (s_trades s) conid = false ->
  let q := entry_qty (risk e) in
  let buy := if b_rth b then MarketOrder "BUY" q
             else set_outsideRth (LimitOrder "BUY" q (round2 (m * 1.002))) in
  fst (entry_section e symbol true true mtr b s) = Ok true /\
  s_placed (snd (entry_section e symbol true true mtr b s))
  = s_placed s ++ [mkTrade (Some conid) (set_orderId (s_next_id s) buy) (b_status b);
                   mkTrade (Some conid) (set_orderId (s_next_id s + 1) (trail_order (risk e) q))
                     (b_status b)].
Proof.
  intros Hdb Hrow Hc Hal Hm Hpf Hok Htr q buy.
  destruct (b_quote b conid) as [qt|] eqn:Hq; cbn in Hm; [|discriminate].
  assert (Hpos : Qle_bool m 0 = false).
  { destruct (Qle_bool m 0) eqn:E; [|reflexivity]. apply Qle_bool_iff in E.
    exfalso. exact (Qlt_not_le _ _ (mark_of_quote_pos _ _ Hm) E). }
  unfold entry_section, load_latest_signal, already_long_conid, get_positions,
    get_mark_price_snapshot, bind, ask, ret, inc, modify, trades.
  cbn -[safe_int preflight_denies place_buy_entry place_trailing_stop has_working_trailing_sell].
  rewrite Hdb. cbn -[safe_int preflight_denies place_buy_entry place_trailing_stop has_working_trailing_sell latest_signal_row].
  rewrite Hrow. cbn -[safe_int preflight_denies place_buy_entry place_trailing_stop has_working_trailing_sell].
  rewrite Hc. cbn -[safe_int preflight_denies place_buy_entry place_trailing_stop has_working_trailing_sell].
  rewrite Hal, Hq, Hm, Hpos, Hpf.
  rewrite (place_buy_entry_placed conid _ qt m b _ Hok Hq Hm). fold buy.
  cbn -[has_working_trailing_sell place_trailing_stop].
  replace (has_working_trailing_sell _ conid) with false.
  2:{ symmetry. unfold has_working_trailing_sell. cbn. rewrite existsb_app.
      unfold has_working_trailing_sell in Htr. rewrite Htr. cbn.
      unfold buy. destruct (b_rth b); cbn; rewrite ?andb_false_r; reflexivity. }
  cbn -[place_trailing_stop]. unfold place_trailing_stop. cbn [negb].
  rewrite place_and_track_eq, Hok. cbn. split; [reflexivity|].
  rewrite <- app_assoc. reflexivity.
Qed.

Lemma entry_then_trailing_stop_witness :
  fst (entry_section default_engine "XYZ" true true 500 (brk_rth rows_stale_signal) st_empty)
  = Ok true /\
  s_placed (snd (entry_section default_engine "XYZ" true true 500 (brk_rth rows_stale_signal)
                   st_empty))
  = [mkTrade (Some 777%Z) (set_orderId 1 (MarketOrder "BUY" 2)) "Submitted";
     mkTrade (Some 777%Z) (set_orderId 2 (trail_order default_risk 2)) "Submitted"].
Proof.
  exact (entry_then_trailing_stop default_engine "XYZ" 500 (brk_rth rows_stale_signal) st_empty
           rows_stale_signal (mkSignalRow "XYZ" 1 (VInt 777) true) 777 ((49.99 + 50.01) / 2)
           eq_refl eq_refl eq_refl eq_refl eq_refl eq_refl eq_refl eq_refl).
Defined.

(** ** A tracked entry closes the entry gates *)

(** Once an entry order (a BUY that is not a TRAIL) has been placed with a
    working status and tracked by [_track_trade], the entry gates stay
    closed at every time [now] less than [min_order_age_seconds] after its
    submission, whatever the kill switch said. *)
Theorem tracked_entry_closes_gates (cfg : RiskConfig) (b : Broker) (s : St) (conid : Z)
  (o : Order) (ks : bool) (now : Q) :
  action o = "BUY" -> orderType o <> "TRAIL" -> working_status (b_status b) = true ->
  now - b_now b < min_order_age_seconds cfg ->
  entry_gates cfg ks (s_trades (placed_state b s conid o))
    (s_submit_time (placed_state b s conid o)) now = false.
Proof.
  intros Ha Hty Hw Hage. unfold entry_gates. cbv zeta.
  replace (age_gate_hit _ _ _ _) with true; [by rewrite !andb_false_r|].
  symmetry. unfold age_gate_hit, open_entry_trades. cbn.
  rewrite !List.filter_app, existsb_app. apply orb_true_iff. right.
  cbn. rewrite Hw. unfold is_entry_order_trade. cbn.
  destruct (String.eqb (orderType o) "TRAIL") eqn:Et; [apply String.eqb_eq in Et; contradiction|].
  rewrite Ha. cbn. rewrite lookup_insert_eq. rewrite orb_false_r.
  unfold Qlt_bool. apply negb_true_iff.
  destruct (Qle_bool (min_order_age_seconds cfg) (now - b_now b)) eqn:E; [|reflexivity].
  apply Qle_bool_iff in E. exfalso. exact (Qlt_not_le _ _ Hage E).
Qed.

Lemma tracked_entry_closes_gates_witness :
  working_status (b_status (brk_rth [])) = true /\
  entry_gates default_risk true
    (s_trades (placed_state (brk_rth []) st_empty 777 (MarketOrder "BUY" 2)))
    (s_submit_time (placed_state (brk_rth []) st_empty 777 (MarketOrder "BUY" 2))) 1000
  = false.
Proof.
  split; [reflexivity|].
  apply (tracked_entry_closes_gates default_risk (brk_rth []) st_empty 777
           (MarketOrder "BUY" 2) true 1000); [reflexivity|discriminate|reflexivity|reflexivity].
Defined.

(** ** The account-summary dict *)

(** The [acct] dict is built row by row: a row whose value parses (commas
    removed) sets its tag to that number, overriding any earlier row and
    leaving the other tags alone; a row whose value is missing, empty or
    unparsable leaves the dict unchanged. *)
Theorem acct_of_rows (rows : list (string * option string)) (k : string) (v : string) (q : Q) :
  v <> EmptyString -> py_float (remove_commas v) = Some q ->
  acct_of (rows ++ [(k, Some v)]) = <[k := q]> (acct_of rows) /\
  (forall (k' : string) (w : option string),
     match w with
     | None => True
     | Some w' => w' = EmptyString \/ py_float (remove_commas w') = None
     end ->
     acct_of (rows ++ [(k', w)]) = acct_of rows).
Proof.
  intros Hv Hq. unfold acct_of. split.
  - rewrite fold_left_app. cbn.
    destruct (String.eqb v EmptyString) eqn:E; [apply String.eqb_eq in E; contradiction|].
    by rewrite Hq.
  - intros k' [w|] Hw; rewrite fold_left_app; cbn; [|reflexivity].
    destruct (String.eqb w EmptyString) eqn:E; [reflexivity|].
    destruct Hw as [Hw|Hw]; [subst w; discriminate|]. by rewrite Hw.
Qed.

Lemma acct_of_rows_witness :
  "100,000.00" <> EmptyString /\
  acct_of [("BuyingPower", Some "5"); ("BuyingPower", Some "100,000.00")] !! "BuyingPower"
  = Some 100000.00.
Proof.
  split; [discriminate|].
  destruct (acct_of_rows [("BuyingPower", Some "5")] "BuyingPower" "100,000.00" 100000.00)
    as [H _]; [discriminate|vm_compute; reflexivity|].
  change [("BuyingPower", Some "5"); ("BuyingPower", Some "100,000.00")]
    with ([("BuyingPower", Some "5")] ++ [("BuyingPower", Some "100,000.00")]).
  rewrite H. apply lookup_insert_eq.
Defined.

(** ** A failed signal read *)

(** When reading the signal table fails, the error is logged (one
    ["errs"]) and the run goes on as if there were no signal: no order is
    submitted, no other counter moves, and position management runs. *)
Theorem signal_read_failure_falls_through (e : Engine) (symbol : string)
  (allow_entries allow_exits : bool) (mtr : Q) (b : Broker) (s : St) :
  b_db b = None ->
  entry_section e symbol allow_entries allow_exits mtr b s
  = (Ok true, set_stats (<["errs" := (stat "errs" (s_stats s) + 1)%Z]> (s_stats s)) s).
Proof.
  intros Hdb. unfold entry_section, load_latest_signal, bind, ask, ret, log_error, inc, modify.
  rewrite Hdb. reflexivity.
Qed.

Lemma signal_read_failure_falls_through_witness :
  b_db (mkBroker true (Some []) None [] (fun _ => None) true true "Submitted" 0 None) = None /\
  entry_section default_engine "XYZ" true true 0
    (mkBroker true (Some []) None [] (fun _ => None) true true "Submitted" 0 None) st_empty
  = (Ok true, set_stats (<["errs" := 1%Z]> ∅) st_empty).
Proof.
  split; [reflexivity|].
  exact (signal_read_failure_falls_through default_engine "XYZ" true true 0
           (mkBroker true (Some []) None [] (fun _ => None) true true "Submitted" 0 None)
           st_empty eq_refl).
Defined.
